(** * The HPA annotation controller (pkg/controller/hpa/hpa_controller.go)

    A shallow embedding of the controller that copies the target
    utilisation of a HorizontalPodAutoscaler's resource metrics into the
    object's annotations, together with the properties of its reconcile
    function, its retry policy and its start-up sequence. *)

From Stdlib Require Import ZArith Ascii String DecimalString DecimalZ DecimalPos.
From stdpp Require Import base gmap strings list fin_maps.

Local Open Scope string_scope.
Local Open Scope Z_scope.

(** ** Go values that may panic *)

(** A pure Go computation either yields a value or panics at run time
    (here: the dereference of a nil pointer). *)
Inductive go (A : Type) : Type :=
| Val (a : A)
| Panic.
Arguments Val {A} a.
Arguments Panic {A}.

Definition go_bind {A B : Type} (c : go A) (k : A -> go B) : go B :=
  match c with
  | Val a => k a
  | Panic => Panic
  end.

(** [*p] for a pointer [p] that may be nil. *)
Definition deref {A : Type} (p : option A) : go A :=
  match p with
  | Some a => Val a
  | None => Panic
  end.

(** ** The Kubernetes objects the controller reads *)

(** [v1.ResourceName] is a string type; these are its two constants the
    controller compares against. *)
Definition ResourceName := string.
Definition ResourceCPU : ResourceName := "cpu".
Definition ResourceMemory : ResourceName := "memory".

Inductive MetricTargetType : Type :=
| UtilizationMetricType
| ValueMetricType
| AverageValueMetricType.

(** [v2.MetricTarget]: [AverageUtilization] is a [*int32], nil unless
    the target is a utilisation target.  The quantities [Value] and
    [AverageValue] are never read by the controller. *)
Record MetricTarget : Type := {
  TargetType : MetricTargetType;
  AverageUtilization : option Z
}.

(** [v2.ResourceMetricSource]. *)
Record ResourceMetricSource : Type := {
  Name : ResourceName;
  Target : MetricTarget
}.

Inductive MetricSourceType : Type :=
| ObjectMetricSourceType
| PodsMetricSourceType
| ResourceMetricSourceType
| ContainerResourceMetricSourceType
| ExternalMetricSourceType.

(** [v2.MetricSpec]: of the per-kind pointers only [Resource] is read;
    it is nil for metrics of every other kind. *)
Record MetricSpec : Type := {
  MetricType : MetricSourceType;
  Resource : option ResourceMetricSource
}.

(** [v2.HorizontalPodAutoscaler], flattened to the fields in use:
    [ObjectMeta.Namespace], [ObjectMeta.Name], [ObjectMeta.Annotations]
    (a Go map, which may be nil) and [Spec.Metrics]. *)
Record HorizontalPodAutoscaler : Type := {
  Namespace : string;
  ObjName : string;
  Annotations : option (gmap string string);
  Metrics : list MetricSpec
}.

Definition set_Annotations (a : option (gmap string string))
    (hpa : HorizontalPodAutoscaler) : HorizontalPodAutoscaler :=
  {| Namespace := Namespace hpa; ObjName := ObjName hpa;
     Annotations := a; Metrics := Metrics hpa |}.

(** [hpa.DeepCopy()]: values are immutable here, so the copy is the
    value itself; every later change is made to the copy only. *)
Definition DeepCopy (hpa : HorizontalPodAutoscaler) : HorizontalPodAutoscaler := hpa.

(** [len] of a Go map: zero for the nil map. *)
Definition map_len (m : option (gmap string string)) : nat :=
  match m with
  | Some m => size m
  | None => O
  end.

(** [fmt.Sprintf("%d", n)] for an [int32]: base ten, a minus sign for
    negative values, no leading zeros. *)
Definition Sprintf_d (n : Z) : string :=
  NilZero.string_of_int (Z.to_int n).

(** ** annotations *)

(** The body of the loop of [annotations] for one metric. *)
Definition annotate_metric (m : gmap string string) (metric : MetricSpec)
    : go (gmap string string) :=
  match Resource metric with
  | Some r =>
      go_bind
        (if String.eqb (Name r) ResourceCPU
         then go_bind (deref (AverageUtilization (Target r)))
                (fun u => Val (<["cpuTargetUtilization" := Sprintf_d u]> m))
         else Val m)
        (fun m1 =>
           if String.eqb (Name r) ResourceMemory
           then go_bind (deref (AverageUtilization (Target r)))
                  (fun u => Val (<["memoryTargetValue" := Sprintf_d u]> m1))
           else Val m1)
  | None => Val m
  end.

(** [for _, metric := range metrics { ... }] *)
Fixpoint annotate_metrics (m : gmap string string) (metrics : list MetricSpec)
    : go (gmap string string) :=
  match metrics with
  | [] => Val m
  | metric :: rest =>
      go_bind (annotate_metric m metric) (fun m1 => annotate_metrics m1 rest)
  end.

(** The result is the nil map when there are no metrics, and a map made
    by [make] otherwise. *)
Definition annotations (hpa : HorizontalPodAutoscaler)
    : go (option (gmap string string)) :=
  if Nat.eqb (length (Metrics hpa)) 0 then Val None
  else go_bind (annotate_metrics ∅ (Metrics hpa)) (fun m => Val (Some m)).

(** ** Errors and log lines *)

(** A Go [error] value: a status error of the API machinery, which
    carries a reason, or a plain error made by [fmt.Errorf]. *)
Inductive error : Type :=
| StatusError (reason : string) (message : string)
| Errorf (message : string).

(** [errors.IsNotFound] *)
Definition IsNotFound (err : error) : bool :=
  match err with
  | StatusError reason _ => String.eqb reason "NotFound"
  | Errorf _ => false
  end.

Inductive LogLine : Type :=
| klog_Info (msg : string)
| klog_V_Info (level : nat) (msg : string) (key : string)
| klog_Error (err : error) (msg : string) (namespace name : string).

(** ** The rate-limited work queue *)

Module workqueue.

(** Modelled from the spec: the work queue ([workqueue.RateLimitingInterface],
    which the controller obtains from client-go and whose implementation is
    not among the sources).  It keeps the FIFO of pending keys, the set of
    keys added and not yet handed out, the set of keys being processed, the
    per-key requeue counter, and the keys waiting for their back-off delay
    to elapse. *)
Record Queue : Type := {
  items : list string;
  dirty : gset string;
  processing : gset string;
  failures : gmap string nat;
  waiting : list string;
  shuttingDown : bool
}.

Definition empty : Queue :=
  {| items := []; dirty := ∅; processing := ∅; failures := ∅;
     waiting := []; shuttingDown := false |}.

(** Modelled from the spec: [add(key)] inserts the key if absent; it is a
    no-op if the key is already queued, and a key that is being processed
    is only marked, to be delivered again after [done]. *)
Definition Add (key : string) (q : Queue) : Queue :=
  if shuttingDown q then q
  else if decide (key ∈ dirty q) then q
  else
    {| items := if decide (key ∈ processing q) then items q else items q ++ [key];
       dirty := {[key]} ∪ dirty q;
       processing := processing q;
       failures := failures q;
       waiting := waiting q;
       shuttingDown := shuttingDown q |}.

(** Modelled from the spec: [get()] hands out the first pending key and
    marks it as processing; on an empty queue it reports the shutdown, or
    blocks ([None]) when the queue is not shut down. *)
Definition Get (q : Queue) : option (string * bool * Queue) :=
  match items q with
  | key :: rest =>
      Some (key, false,
            {| items := rest;
               dirty := dirty q ∖ {[key]};
               processing := {[key]} ∪ processing q;
               failures := failures q;
               waiting := waiting q;
               shuttingDown := shuttingDown q |})
  | [] => if shuttingDown q then Some ("", true, q) else None
  end.

(** Modelled from the spec: [done(key)] ends the processing of the key; a
    key re-added in the meantime becomes pending again. *)
Definition Done (key : string) (q : Queue) : Queue :=
  {| items := if decide (key ∈ dirty q) then items q ++ [key] else items q;
     dirty := dirty q;
     processing := processing q ∖ {[key]};
     failures := failures q;
     waiting := waiting q;
     shuttingDown := shuttingDown q |}.

(** Modelled from the spec: [numRequeues(key)] is the key's retry counter. *)
Definition NumRequeues (key : string) (q : Queue) : nat :=
  default O (failures q !! key).

(** Modelled from the spec: [forget(key)] resets the key's retry counter. *)
Definition Forget (key : string) (q : Queue) : Queue :=
  {| items := items q; dirty := dirty q; processing := processing q;
     failures := delete key (failures q);
     waiting := waiting q;
     shuttingDown := shuttingDown q |}.

(** Modelled from the spec: [addRateLimited(key)] counts one more requeue
    of the key and re-adds it after the back-off delay; until the delay
    has elapsed the key is in [waiting]. *)
Definition AddRateLimited (key : string) (q : Queue) : Queue :=
  {| items := items q; dirty := dirty q; processing := processing q;
     failures := <[key := S (NumRequeues key q)]> (failures q);
     waiting := if shuttingDown q then waiting q else waiting q ++ [key];
     shuttingDown := shuttingDown q |}.

(** Modelled from the spec: [shutDown()] stops the queue; idempotent. *)
Definition ShutDown (q : Queue) : Queue :=
  {| items := items q; dirty := dirty q; processing := processing q;
     failures := failures q; waiting := waiting q;
     shuttingDown := true |}.

End workqueue.

(** ** Resource keys *)

Module cache.

(** [strings.Split(key, "/")] *)
Fixpoint split_slash (key : string) : list string :=
  match key with
  | EmptyString => [EmptyString]
  | String c rest =>
      if Ascii.eqb c "/"%char then EmptyString :: split_slash rest
      else match split_slash rest with
           | part :: parts => String c part :: parts
           | [] => [String c EmptyString]
           end
  end.

(** Modelled from the spec: the decomposition of a Resource Key, the
    string [namespace/name], into namespace and name (in the code
    client-go's [cache.SplitMetaNamespaceKey], which is not among the
    sources): a key without a slash is a name in the empty namespace, and
    a key with more than one slash is not a key. *)
Definition SplitMetaNamespaceKey (key : string) : (string * string + error)%type :=
  match split_slash key with
  | [name] => inl (EmptyString, name)
  | [namespace; name] => inl (namespace, name)
  | _ => inr (Errorf ("unexpected key format: " ++ key))
  end.

End cache.

(** ** The world the controller acts on *)

(** One call of
    [client.AutoscalingV2().HorizontalPodAutoscalers(namespace).Update]. *)
Record UpdateCall : Type := {
  call_namespace : string;
  call_object : HorizontalPodAutoscaler
}.

Record World : Type := {
  queue : workqueue.Queue;          (* v.queue *)
  updates : list UpdateCall;        (* the remote update calls made so far *)
  handled : list error;             (* errors given to utilruntime.HandleError *)
  logs : list LogLine;              (* klog output *)
  launched : nat                    (* worker loops launched by Run *)
}.

Definition set_queue (f : workqueue.Queue -> workqueue.Queue) (w : World) : World :=
  {| queue := f (queue w); updates := updates w; handled := handled w;
     logs := logs w; launched := launched w |}.

Definition add_update (c : UpdateCall) (w : World) : World :=
  {| queue := queue w; updates := updates w ++ [c]; handled := handled w;
     logs := logs w; launched := launched w |}.

Definition add_handled (err : error) (w : World) : World :=
  {| queue := queue w; updates := updates w; handled := handled w ++ [err];
     logs := logs w; launched := launched w |}.

Definition add_log (l : LogLine) (w : World) : World :=
  {| queue := queue w; updates := updates w; handled := handled w;
     logs := logs w ++ [l]; launched := launched w |}.

Definition add_worker (w : World) : World :=
  {| queue := queue w; updates := updates w; handled := handled w;
     logs := logs w; launched := S (launched w) |}.

Definition world0 : World :=
  {| queue := workqueue.empty; updates := []; handled := []; logs := []; launched := O |}.

(** A method of the controller run from a world: it returns a value in
    a new world, or panics in the world reached so far. *)
Inductive outcome (A : Type) : Type :=
| Returned (a : A) (w : World)
| Panicked (w : World).
Arguments Returned {A} a w.
Arguments Panicked {A} w.

Definition M (A : Type) : Type := World -> outcome A.

Definition ret {A : Type} (a : A) : M A := fun w => Returned a w.

Definition bind {A B : Type} (c : M A) (k : A -> M B) : M B :=
  fun w =>
    match c w with
    | Returned a w1 => k a w1
    | Panicked w1 => Panicked w1
    end.

Declare Scope go_scope.
Delimit Scope go_scope with go.
Notation "x <- c ;; k" := (bind c (fun x => k))
  (at level 100, c at next level, right associativity) : go_scope.
Notation "c ;; k" := (bind c (fun _ => k))
  (at level 100, right associativity) : go_scope.

(** A pure computation inside a method: its panic is the method's. *)
Definition lift {A : Type} (c : go A) : M A :=
  fun w =>
    match c with
    | Val a => Returned a w
    | Panic => Panicked w
    end.

(** A statement that only changes the world. *)
Definition act (f : World -> World) : M unit := fun w => Returned tt (f w).

(** A read of the world. *)
Definition read {A : Type} (f : World -> A) : M A := fun w => Returned (f w) w.

(** [defer f(); body]: [f] runs when the body returns and also when it
    panics. *)
Definition defer {A : Type} (f : World -> World) (body : M A) : M A :=
  fun w =>
    match body w with
    | Returned a w1 => Returned a (f w1)
    | Panicked w1 => Panicked (f w1)
    end.

(** The world an outcome ends in. *)
Definition final {A : Type} (o : outcome A) : World :=
  match o with
  | Returned _ w => w
  | Panicked w => w
  end.

(** ** The controller *)

Definition maxRetries : nat := 15.

(** The collaborators held by the Go struct.  [hpaLister] is the
    namespaced [Get] of the lister, a read of the informer's cache;
    [client] is the answer of the API server to an update, which may
    depend on the update calls made before it.  The queue of the struct
    is a mutable object and lives in the world. *)
Record HPAController : Type := {
  client : list UpdateCall -> UpdateCall -> (HorizontalPodAutoscaler + error)%type;
  hpaLister : string -> string -> (HorizontalPodAutoscaler + error)%type
}.

(** [v.client.AutoscalingV2().HorizontalPodAutoscalers(namespace).Update(...)] *)
Definition Update (v : HPAController) (namespace : string)
    (hpa : HorizontalPodAutoscaler) : M (HorizontalPodAutoscaler + error)%type :=
  fun w =>
    let c := {| call_namespace := namespace; call_object := hpa |} in
    Returned (client v (updates w) c) (add_update c w).

(** [for key, value := range annotationsMaps { a[key] = value }]; the
    range over a nil map has no iteration. *)
Definition range_assign (annotationsMaps : option (gmap string string))
    (a : gmap string string) : gmap string string :=
  match annotationsMaps with
  | Some m => map_fold (fun key value acc => <[key := value]> acc) a m
  | None => a
  end.

(** The [if len(annotationsMaps) != 0 { ... }] block of [syncHPA]. *)
Definition merge_annotations (annotationsMaps : option (gmap string string))
    (hpaCopyed : HorizontalPodAutoscaler) : HorizontalPodAutoscaler :=
  if negb (Nat.eqb (map_len annotationsMaps) 0) then
    let a := match Annotations hpaCopyed with
             | None => ∅
             | Some a => a
             end in
    set_Annotations (Some (range_assign annotationsMaps a)) hpaCopyed
  else hpaCopyed.

Section Controller.

(** [cache.SplitMetaNamespaceKey], a function of client-go: the
    namespace and the name of a key, or an error. *)
Variable SplitMetaNamespaceKey : string -> (string * string + error)%type.

Variable v : HPAController.

Local Open Scope go_scope.

(** main function of the reconcile for hpa *)
Definition syncHPA (key : string) : M (option error) :=
  defer (add_log (klog_V_Info 4 "Finished syncing hps." key))
    (match SplitMetaNamespaceKey key with
     | inr err => ret (Some err)
     | inl (namespace, name) =>
         match hpaLister v namespace name with
         | inr err =>
             (* has been deleted *)
             if IsNotFound err then ret None
             else (act (add_log (klog_Error err "get hpa failed" namespace name)) ;;
                   ret (Some err))
         | inl hpa =>
             let hpaCopyed := DeepCopy hpa in
             annotationsMaps <- lift (annotations hpaCopyed) ;;
             let hpaCopyed := merge_annotations annotationsMaps hpaCopyed in
             r <- Update v (Namespace hpaCopyed) hpaCopyed ;;
             match r with
             | inr err => ret (Some err)
             | inl _ => ret None
             end
         end
     end).

Definition handleErr (err : option error) (key : string) : M unit :=
  match err with
  | None => act (set_queue (workqueue.Forget key))
  | Some e =>
      numRequeues <- read (fun w => workqueue.NumRequeues key (queue w)) ;;
      if Nat.ltb numRequeues maxRetries then
        (act (add_log (klog_V_Info 2 "Error syncing hpa, retrying." key)) ;;
         act (set_queue (workqueue.AddRateLimited key)))
      else
        (act (add_log (klog_V_Info 4 "Dropping hpa out of the queue" key)) ;;
         act (set_queue (workqueue.Forget key)) ;;
         act (add_handled e))
  end.

(** One step of a worker.  [None]: the queue is empty and not shut
    down, the worker waits in [Get]. *)
Definition processNextWorkItem : World -> option (outcome bool) :=
  fun w =>
    match workqueue.Get (queue w) with
    | None => None
    | Some (eKey, quit, q) =>
        let w1 := set_queue (fun _ => q) w in
        if quit then Some (Returned false w1)
        else
          Some (defer (set_queue (workqueue.Done eKey))
                  (err <- syncHPA eKey ;;
                   handleErr err eKey ;;
                   ret true) w1)
    end.

(** [Run], up to the launch of the worker loops.  [synced] is the
    answer of [cache.WaitForCacheSync(stopCh, v.hpaSynced)].  After the
    launch the call waits for the stop channel, while the workers run on
    their own: that wait and what the workers do meanwhile are not part of
    this definition, whose second branch only records the launch.  The
    deferred calls run in reverse order when the call returns;
    [utilruntime.HandleCrash] has no panic to handle here. *)
Definition Run (workers : Z) (synced : bool) : M (option error) :=
  defer (set_queue workqueue.ShutDown)
    (act (add_log (klog_Info "starting hpa controller")) ;;
     defer (add_log (klog_Info "shutting down hpa controller"))
       (if negb synced then
          ret (Some (Errorf "failed to wait for caches to sync"))
        else
          (act (fun w => Nat.iter (Z.to_nat workers) add_worker w) ;;
           ret None))).

End Controller.

(** ** Vocabulary of the statements *)

(** The metric is a resource-type metric for the resource [name]. *)
Definition targets (name : ResourceName) (metric : MetricSpec) : bool :=
  match Resource metric with
  | Some r => String.eqb (Name r) name
  | None => false
  end.

(** The metric is of a resource type. *)
Definition is_resource_metric (metric : MetricSpec) : bool :=
  match Resource metric with
  | Some _ => true
  | None => false
  end.

(** The average-utilisation pointer is set wherever [annotations]
    dereferences it. *)
Definition target_set (metric : MetricSpec) : bool :=
  match Resource metric with
  | Some r =>
      if String.eqb (Name r) ResourceCPU || String.eqb (Name r) ResourceMemory
      then bool_decide (is_Some (AverageUtilization (Target r)))
      else true
  | None => true
  end.

(** A resource-type metric with a utilisation target. *)
Definition resource_metric (name : ResourceName) (u : Z) : MetricSpec :=
  {| MetricType := ResourceMetricSourceType;
     Resource := Some {| Name := name;
                         Target := {| TargetType := UtilizationMetricType;
                                      AverageUtilization := Some u |} |} |}.

(** A resource-type metric with an average-value target: the quantity
    is set and the utilisation pointer is nil. *)
Definition average_value_metric (name : ResourceName) : MetricSpec :=
  {| MetricType := ResourceMetricSourceType;
     Resource := Some {| Name := name;
                         Target := {| TargetType := AverageValueMetricType;
                                      AverageUtilization := None |} |} |}.

(** A metric of another kind. *)
Definition pods_metric : MetricSpec :=
  {| MetricType := PodsMetricSourceType; Resource := None |}.

(** An API server that accepts every update. *)
Definition accept_all : list UpdateCall -> UpdateCall -> (HorizontalPodAutoscaler + error)%type :=
  fun _ c => inl (call_object c).

(** An API server that rejects every update. *)
Definition reject_all : list UpdateCall -> UpdateCall -> (HorizontalPodAutoscaler + error)%type :=
  fun _ _ => inr (StatusError "Conflict" "the object has been modified").

(** A cache that holds the one object [hpa]. *)
Definition cache_of (hpa : HorizontalPodAutoscaler)
    : string -> string -> (HorizontalPodAutoscaler + error)%type :=
  fun namespace name =>
    if String.eqb namespace (Namespace hpa) && String.eqb name (ObjName hpa)
    then inl hpa
    else inr (StatusError "NotFound" name).

Definition controller_of (hpa : HorizontalPodAutoscaler) : HPAController :=
  {| client := accept_all; hpaLister := cache_of hpa |}.

Definition web (a : option (gmap string string)) (metrics : list MetricSpec)
    : HorizontalPodAutoscaler :=
  {| Namespace := "prod"; ObjName := "web"; Annotations := a; Metrics := metrics |}.

(** [n] failed syncs of [key] in a row, each one passed to [handleErr]. *)
Fixpoint fail_times (n : nat) (e : error) (key : string) (w : World) : World :=
  match n with
  | O => w
  | S n' => final (handleErr (Some e) key (fail_times n' e key w))
  end.

(** ** The rest of the controller: event handlers and the retry loop *)

Section Events.

(** The objects an informer hands to its handlers ([interface{}]), and
    [cache.MetaNamespaceKeyFunc] of client-go, which finds the key of an
    object or fails. *)
Variable Obj : Type.
Variable MetaNamespaceKeyFunc : Obj -> (string + error)%type.

(** The text of the error that [enqueueHPA] builds from the object and
    the error of the key function. *)
Variable couldnt_get_key : Obj -> error -> string.

Definition enqueueHPA (obj : Obj) : M unit :=
  match MetaNamespaceKeyFunc obj with
  | inr err => act (add_handled (Errorf (couldnt_get_key obj err)))
  | inl key => act (set_queue (workqueue.Add key))
  end.

(** A notification of the informer. *)
Inductive Event : Type :=
| OnAdd (obj : Obj)
| OnUpdate (old cur : Obj)
| OnDelete (obj : Obj).

(** The handlers that [NewHPAController] registers: [AddFunc] and
    [UpdateFunc] are set, [DeleteFunc] is not. *)
Definition handle (ev : Event) : M unit :=
  match ev with
  | OnAdd obj => enqueueHPA obj
  | OnUpdate _ cur => enqueueHPA cur
  | OnDelete _ => ret tt
  end.

(** The answer of the key function for the object that a handler looks
    at; a notification without handler has none. *)
Definition event_key (ev : Event) : option (string + error) :=
  match ev with
  | OnAdd obj => Some (MetaNamespaceKeyFunc obj)
  | OnUpdate _ cur => Some (MetaNamespaceKeyFunc cur)
  | OnDelete _ => None
  end.

(** The key that a notification puts into the queue, if any. *)
Definition queued_key (ev : Event) : option string :=
  match event_key ev with
  | Some (inl key) => Some key
  | _ => None
  end.

(** The error that a notification sends to the error sink, if any. *)
Definition reported (ev : Event) : option error :=
  match ev with
  | OnAdd obj | OnUpdate _ obj =>
      match MetaNamespaceKeyFunc obj with
      | inr err => Some (Errorf (couldnt_get_key obj err))
      | inl _ => None
      end
  | OnDelete _ => None
  end.

(** The handlers run for a sequence of notifications. *)
Fixpoint handle_all (evs : list Event) : M unit :=
  match evs with
  | [] => ret tt
  | ev :: rest => bind (handle ev) (fun _ => handle_all rest)
  end.

End Events.

Arguments OnAdd {Obj} obj.
Arguments OnUpdate {Obj} old cur.
Arguments OnDelete {Obj} obj.

(** The list without the first occurrence of the key. *)
Fixpoint remove_first (key : string) (keys : list string) : list string :=
  match keys with
  | [] => []
  | k :: rest => if String.eqb k key then rest else k :: remove_first key rest
  end.

(** Modelled from the spec: the end of a back-off delay.  The spec's
    [addRateLimited] re-adds the key after a computed delay: when the delay
    of a key in [waiting] has elapsed the key leaves [waiting] and is added
    with [add]; for a key that does not wait nothing happens.  (The timers
    are those of client-go's delaying queue, which is not among the
    sources.) *)
Definition elapse (key : string) (q : workqueue.Queue) : workqueue.Queue :=
  if decide (key ∈ workqueue.waiting q) then
    workqueue.Add key
      {| workqueue.items := workqueue.items q;
         workqueue.dirty := workqueue.dirty q;
         workqueue.processing := workqueue.processing q;
         workqueue.failures := workqueue.failures q;
         workqueue.waiting := remove_first key (workqueue.waiting q);
         workqueue.shuttingDown := workqueue.shuttingDown q |}
  else q.

(** What happens around one worker: the worker makes a step of its
    loop, or the back-off delay of a key ends. *)
Inductive action : Type :=
| Step
| Fire (key : string).

Section Worker.

Variable SplitMetaNamespaceKey : string -> (string * string + error)%type.
Variable v : HPAController.

(** [worker]: the loop [for v.processNextWorkItem() { }] of one worker,
    with the ends of delays that fall between its steps.  A step on an
    empty queue waits in [Get] until something is added, and a panic of a
    step ends the run. *)
Fixpoint worker (schedule : list action) (w : World) : outcome unit :=
  match schedule with
  | [] => Returned tt w
  | Step :: rest =>
      match processNextWorkItem SplitMetaNamespaceKey v w with
      | None => worker rest w
      | Some (Returned true w') => worker rest w'
      | Some (Returned false w') => Returned tt w'
      | Some (Panicked w') => Panicked w'
      end
  | Fire key :: rest => worker rest (set_queue (elapse key) w)
  end.

End Worker.

(** [n] rounds of a step of the worker followed by the end of the delay
    of [key]. *)
Fixpoint retry_rounds (key : string) (n : nat) : list action :=
  match n with
  | O => []
  | S n' => Step :: Fire key :: retry_rounds key n'
  end.

(** ** Properties of [annotations] *)

Section Annotations.

Implicit Types (m : gmap string string) (metric : MetricSpec)
  (metrics : list MetricSpec) (hpa : HorizontalPodAutoscaler).

Lemma annotate_metric_no_resource m metric :
  Resource metric = None -> annotate_metric m metric = Val m.
Proof. intros H. unfold annotate_metric. by rewrite H. Qed.

Lemma annotate_metric_cpu m metric r u :
  Resource metric = Some r -> Name r = ResourceCPU ->
  AverageUtilization (Target r) = Some u ->
  annotate_metric m metric = Val (<["cpuTargetUtilization" := Sprintf_d u]> m).
Proof.
  intros HR HN HU. unfold annotate_metric. rewrite HR, HN, HU. reflexivity.
Qed.

Lemma annotate_metric_memory m metric r u :
  Resource metric = Some r -> Name r = ResourceMemory ->
  AverageUtilization (Target r) = Some u ->
  annotate_metric m metric = Val (<["memoryTargetValue" := Sprintf_d u]> m).
Proof.
  intros HR HN HU. unfold annotate_metric. rewrite HR, HN, HU. reflexivity.
Qed.

Lemma annotate_metric_skip m metric :
  targets ResourceCPU metric = false -> targets ResourceMemory metric = false ->
  annotate_metric m metric = Val m.
Proof.
  unfold targets, annotate_metric. destruct (Resource metric) as [r|]; [|done].
  intros -> ->. reflexivity.
Qed.

Lemma annotate_metric_nil_target m metric r :
  Resource metric = Some r ->
  Name r = ResourceCPU \/ Name r = ResourceMemory ->
  AverageUtilization (Target r) = None ->
  annotate_metric m metric = Panic.
Proof.
  intros HR [HN|HN] HU; unfold annotate_metric; rewrite HR, HN, HU; reflexivity.
Qed.

(** The loop body returns exactly when the pointer it reads is set. *)
Lemma annotate_metric_returns m metric :
  target_set metric = true <-> exists m', annotate_metric m metric = Val m'.
Proof.
  unfold target_set, annotate_metric.
  destruct (Resource metric) as [r|]; [|split; eauto].
  destruct (String.eqb (Name r) ResourceCPU) eqn:Ec;
    destruct (String.eqb (Name r) ResourceMemory) eqn:Em; simpl;
    destruct (AverageUtilization (Target r)) as [u|]; simpl;
    rewrite ?bool_decide_eq_true; split; eauto;
    try (intros [m' H]; discriminate);
    try (intros [? H]; discriminate);
    intros H; discriminate.
Qed.

Lemma annotate_metrics_app m metrics1 metrics2 :
  annotate_metrics m (metrics1 ++ metrics2) =
  go_bind (annotate_metrics m metrics1) (fun m1 => annotate_metrics m1 metrics2).
Proof.
  revert m. induction metrics1 as [|metric metrics1 IH]; intros m; simpl; [done|].
  destruct (annotate_metric m metric) as [m1|]; simpl; [apply IH | done].
Qed.

Lemma annotate_metrics_returns m metrics :
  forallb target_set metrics = true <-> exists m', annotate_metrics m metrics = Val m'.
Proof.
  revert m. induction metrics as [|metric metrics IH]; intros m; simpl.
  - split; eauto.
  - rewrite andb_true_iff, (annotate_metric_returns m metric). split.
    + intros [[m1 H1] H2]. rewrite H1. simpl. by apply IH.
    + intros [m' H]. destruct (annotate_metric m metric) as [m1|]; [|done].
      simpl in H. split; [eauto | apply (IH m1); eauto].
Qed.

(** [annotations] returns exactly when every pointer it reads is set. *)
Lemma annotations_returns hpa :
  forallb target_set (Metrics hpa) = true <-> exists am, annotations hpa = Val am.
Proof.
  unfold annotations. destruct (Metrics hpa) as [|metric metrics] eqn:E.
  - simpl. split; eauto.
  - change (Nat.eqb (length (metric :: metrics)) 0) with false. cbv iota.
    rewrite (annotate_metrics_returns ∅ (metric :: metrics)). split.
    + intros [m' H]. rewrite H. simpl. eauto.
    + intros [am H]. destruct (annotate_metrics ∅ (metric :: metrics)); [eauto | done].
Qed.

End Annotations.

Section AnnotationKeys.

Implicit Types (m am : gmap string string) (metric : MetricSpec)
  (metrics : list MetricSpec) (hpa : HorizontalPodAutoscaler).

(** A metric for another resource leaves the cpu annotation alone. *)
Lemma annotate_metric_keeps_cpu m metric m' :
  targets ResourceCPU metric = false ->
  annotate_metric m metric = Val m' ->
  m' !! "cpuTargetUtilization" = m !! "cpuTargetUtilization".
Proof.
  unfold targets, annotate_metric. destruct (Resource metric) as [r|].
  - intros ->. simpl. destruct (String.eqb (Name r) ResourceMemory).
    + destruct (AverageUtilization (Target r)); simpl; [|done].
      intros [= <-]. by rewrite lookup_insert_ne.
    + by intros [= <-].
  - by intros _ [= <-].
Qed.

(** A metric for another resource leaves the memory annotation alone. *)
Lemma annotate_metric_keeps_memory m metric m' :
  targets ResourceMemory metric = false ->
  annotate_metric m metric = Val m' ->
  m' !! "memoryTargetValue" = m !! "memoryTargetValue".
Proof.
  unfold targets, annotate_metric. destruct (Resource metric) as [r|].
  - intros ->. destruct (String.eqb (Name r) ResourceCPU).
    + destruct (AverageUtilization (Target r)); simpl; [|done].
      intros [= <-]. by rewrite lookup_insert_ne.
    + by intros [= <-].
  - by intros _ [= <-].
Qed.

Lemma annotate_metrics_keep_cpu metrics : forall m m',
  forallb (fun later => negb (targets ResourceCPU later)) metrics = true ->
  annotate_metrics m metrics = Val m' ->
  m' !! "cpuTargetUtilization" = m !! "cpuTargetUtilization".
Proof.
  induction metrics as [|metric metrics IH]; simpl; intros m m'.
  - by intros _ [= <-].
  - rewrite andb_true_iff, negb_true_iff. intros [Hm Hrest].
    destruct (annotate_metric m metric) as [m1|] eqn:E; simpl; [|done].
    intros H. rewrite (IH _ _ Hrest H). by apply (annotate_metric_keeps_cpu m metric).
Qed.

Lemma annotate_metrics_keep_memory metrics : forall m m',
  forallb (fun later => negb (targets ResourceMemory later)) metrics = true ->
  annotate_metrics m metrics = Val m' ->
  m' !! "memoryTargetValue" = m !! "memoryTargetValue".
Proof.
  induction metrics as [|metric metrics IH]; simpl; intros m m'.
  - by intros _ [= <-].
  - rewrite andb_true_iff, negb_true_iff. intros [Hm Hrest].
    destruct (annotate_metric m metric) as [m1|] eqn:E; simpl; [|done].
    intros H. rewrite (IH _ _ Hrest H). by apply (annotate_metric_keeps_memory m metric).
Qed.

(** Only the two annotation keys are ever written. *)
Lemma annotate_metrics_other_keys metrics : forall m m' k,
  k <> "cpuTargetUtilization" -> k <> "memoryTargetValue" ->
  annotate_metrics m metrics = Val m' -> m' !! k = m !! k.
Proof.
  induction metrics as [|metric metrics IH]; simpl; intros m m' k Hc Hm.
  - by intros [= <-].
  - destruct (annotate_metric m metric) as [m1|] eqn:E; simpl; [|done].
    intros H. rewrite (IH _ _ _ Hc Hm H). clear H IH.
    unfold annotate_metric in E. destruct (Resource metric) as [r|]; [|by inversion E].
    destruct (String.eqb (Name r) ResourceCPU), (String.eqb (Name r) ResourceMemory),
      (AverageUtilization (Target r)); simpl in E; inversion E;
      by rewrite ?lookup_insert_ne.
Qed.

(** What a run of [annotations] that returns has in common for every
    position of the list: the map made from the metrics up to a metric
    decides the map after it. *)
Lemma annotations_split hpa (pre post : list MetricSpec) metric am :
  Metrics hpa = (pre ++ metric :: post)%list ->
  annotations hpa = Val (Some am) ->
  exists m0 m1,
    annotate_metrics ∅ pre = Val m0 /\
    annotate_metric m0 metric = Val m1 /\
    annotate_metrics m1 post = Val am.
Proof.
  intros HM. unfold annotations. rewrite HM.
  destruct (pre ++ metric :: post)%list as [|x l] eqn:E; [by destruct pre|].
  change (Nat.eqb (length (x :: l)) 0) with false. cbv iota. rewrite <- E.
  rewrite annotate_metrics_app. simpl.
  destruct (annotate_metrics ∅ pre) as [m0|]; simpl; [|done].
  destruct (annotate_metric m0 metric) as [m1|] eqn:E2; simpl; [|done].
  destruct (annotate_metrics m1 post) as [am'|] eqn:E3; simpl; [|done].
  intros [= <-]. exists m0, m1. auto.
Qed.

(** [Sprintf_d] writes a decimal numeral: reading it back gives the
    number. *)
Lemma Sprintf_d_decimal (n : Z) :
  option_map Z.of_int (NilZero.int_of_string (Sprintf_d n)) = Some n.
Proof.
  unfold Sprintf_d.
  destruct n as [|p|p]; [reflexivity| |].
  - rewrite NilZero.isi.
    + simpl. f_equal. apply (DecimalZ.of_to (Z.pos p)).
    + simpl. intros [= H]. by apply Unsigned.to_uint_nonnil in H.
    + discriminate.
  - rewrite NilZero.isi.
    + simpl. f_equal. apply (DecimalZ.of_to (Z.neg p)).
    + discriminate.
    + simpl. intros [= H]. by apply Unsigned.to_uint_nonnil in H.
Qed.

End AnnotationKeys.

(** ** The merge of the computed annotations *)

Section Merge.

Implicit Types (a am : gmap string string) (hpa : HorizontalPodAutoscaler).

(** The assignments of the range loop amount to a union in which the
    computed entries win, whatever the order of the iteration. *)
Lemma range_assign_lookup am a (k : string) :
  range_assign (Some am) a !! k =
  match am !! k with
  | Some s => Some s
  | None => a !! k
  end.
Proof.
  unfold range_assign. revert k.
  apply (map_fold_weak_ind
           (fun (acc am' : gmap string string) =>
              forall k, acc !! k = match am' !! k with
                                   | Some s => Some s
                                   | None => a !! k
                                   end)).
  - intros k. by rewrite lookup_empty.
  - intros i x am' acc Hi IH k. destruct (decide (i = k)) as [->|Hne].
    + by rewrite !lookup_insert_eq.
    + rewrite !lookup_insert_ne by done. apply IH.
Qed.

Lemma range_assign_union am a : range_assign (Some am) a = am ∪ a.
Proof.
  apply map_eq. intros k. rewrite range_assign_lookup, lookup_union.
  destruct (am !! k), (a !! k); reflexivity.
Qed.

Lemma merge_annotations_nil hpa : merge_annotations None hpa = hpa.
Proof. reflexivity. Qed.

Lemma merge_annotations_empty hpa : merge_annotations (Some ∅) hpa = hpa.
Proof. reflexivity. Qed.

Lemma merge_annotations_some am hpa :
  am <> ∅ ->
  merge_annotations (Some am) hpa =
  set_Annotations (Some (am ∪ default ∅ (Annotations hpa))) hpa.
Proof.
  intros Hne. unfold merge_annotations, map_len.
  destruct (Nat.eqb (size am) 0) eqn:E.
  - apply Nat.eqb_eq in E. by apply map_size_empty_iff in E.
  - cbn [negb]. rewrite range_assign_union. by destruct (Annotations hpa).
Qed.

End Merge.

(** ** Properties of [syncHPA], [handleErr] and [Run] *)

Section Reconcile.

Variable SplitMetaNamespaceKey : string -> (string * string + error)%type.
Variable v : HPAController.

Implicit Types (key namespace name : string) (hpa : HorizontalPodAutoscaler)
  (w : World) (err e : error).

(** The reconcile function of this controller. *)
Local Abbreviation sync := (syncHPA SplitMetaNamespaceKey v).

(** The call of [syncHPA] on a cached object whose annotations are
    computed: one update with the merged copy, whose answer decides the
    result. *)
Lemma syncHPA_found key namespace name hpa am w :
  SplitMetaNamespaceKey key = inl (namespace, name) ->
  hpaLister v namespace name = inl hpa ->
  annotations hpa = Val am ->
  let c := {| call_namespace := Namespace hpa;
              call_object := merge_annotations am hpa |} in
  sync key w =
  Returned (match client v (updates w) c with
            | inr err => Some err
            | inl _ => None
            end)
           (add_log (klog_V_Info 4 "Finished syncing hps." key) (add_update c w)).
Proof.
  intros HS HL HA. unfold syncHPA, defer, bind, lift, Update, DeepCopy.
  rewrite HS, HL, HA. cbv zeta.
  replace (Namespace (merge_annotations am hpa)) with (Namespace hpa)
    by (unfold merge_annotations; by destruct (negb _)).
  by destruct (client v (updates w) _).
Qed.

(** The call of [syncHPA] on a cached object on which [annotations]
    panics: the panic ends the call before any update. *)
Lemma syncHPA_panics key namespace name hpa w :
  SplitMetaNamespaceKey key = inl (namespace, name) ->
  hpaLister v namespace name = inl hpa ->
  annotations hpa = Panic ->
  sync key w = Panicked (add_log (klog_V_Info 4 "Finished syncing hps." key) w).
Proof.
  intros HS HL HA. unfold syncHPA, defer, bind, lift, DeepCopy.
  by rewrite HS, HL, HA.
Qed.

(** In every call that returns, the world changes by the update call
    and the log line only. *)
Lemma syncHPA_frame key w res w' :
  sync key w = Returned res w' ->
  queue w' = queue w /\ handled w' = handled w /\ launched w' = launched w.
Proof.
  unfold syncHPA, defer, bind, lift, Update, act, ret, DeepCopy.
  destruct (SplitMetaNamespaceKey key) as [[namespace name]|err].
  - destruct (hpaLister v namespace name) as [hpa|err].
    + destruct (annotations hpa) as [am|]; [|done].
      destruct (client v (updates w) _); by intros [= _ <-].
    + destruct (IsNotFound err); by intros [= _ <-].
  - by intros [= _ <-].
Qed.

(** C5: for every key whose resource is absent from the cache (the
    lookup answers not-found), [syncHPA] returns success, without an
    error, and issues no remote update call. *)
Theorem syncHPA_not_found key namespace name err w :
  SplitMetaNamespaceKey key = inl (namespace, name) ->
  hpaLister v namespace name = inr err ->
  IsNotFound err = true ->
  exists w',
    sync key w = Returned None w' /\
    updates w' = updates w /\ queue w' = queue w /\ handled w' = handled w.
Proof.
  intros HS HL HN. unfold syncHPA, defer, ret. rewrite HS, HL, HN.
  eexists. split; [reflexivity | done].
Qed.

(** C1 (amended): for every resource whose spec has zero metrics,
    [syncHPA] computes no annotations ([annotations] returns the nil map
    and the copy keeps its annotation map as it was), makes exactly one
    remote update call, which carries the unchanged copy, and returns the
    outcome of that call: success when the update succeeds, the update's
    error otherwise. *)
Theorem syncHPA_zero_metrics key namespace name hpa w :
  SplitMetaNamespaceKey key = inl (namespace, name) ->
  hpaLister v namespace name = inl hpa ->
  Metrics hpa = [] ->
  let c := {| call_namespace := Namespace hpa; call_object := hpa |} in
  annotations hpa = Val None /\
  exists w',
    sync key w = Returned (match client v (updates w) c with
                           | inr err => Some err
                           | inl _ => None
                           end) w' /\
    updates w' = (updates w ++ [c])%list /\
    queue w' = queue w /\ handled w' = handled w.
Proof.
  intros HS HL HM c.
  assert (HA : annotations hpa = Val None) by (unfold annotations; by rewrite HM).
  split; [done|]. rewrite (syncHPA_found key namespace name hpa None w HS HL HA).
  eexists. split; [reflexivity | done].
Qed.

(** The update sent for a resource with computed annotations carries
    the union of the computed map and the map the resource had. *)
Lemma syncHPA_sends_merge key namespace name hpa am w :
  SplitMetaNamespaceKey key = inl (namespace, name) ->
  hpaLister v namespace name = inl hpa ->
  annotations hpa = Val (Some am) ->
  am <> ∅ ->
  exists res w',
    sync key w = Returned res w' /\
    updates w' =
      (updates w ++ [ {| call_namespace := Namespace hpa;
                         call_object :=
                           set_Annotations (Some (am ∪ default ∅ (Annotations hpa))) hpa |} ])%list.
Proof.
  intros HS HL HA Hne.
  rewrite (syncHPA_found key namespace name hpa (Some am) w HS HL HA).
  rewrite (merge_annotations_some am hpa Hne). eauto.
Qed.

(** C6: for every resource with at least one computed annotation,
    [syncHPA] sends the copy whose annotation map is the merge of the
    computed annotations into the existing map (the empty map when the
    resource had none): the object sent has an annotation map in which
    every computed key has its computed value and every other key has the
    value it had before, and is the cached object otherwise. *)
Theorem syncHPA_merges_annotations key namespace name hpa am w :
  SplitMetaNamespaceKey key = inl (namespace, name) ->
  hpaLister v namespace name = inl hpa ->
  annotations hpa = Val (Some am) ->
  am <> ∅ ->
  exists res w' sent a,
    sync key w = Returned res w' /\
    updates w' = (updates w ++ [ {| call_namespace := Namespace hpa;
                                   call_object := sent |} ])%list /\
    Annotations sent = Some a /\
    (forall k s, am !! k = Some s -> a !! k = Some s) /\
    (forall k, am !! k = None -> a !! k = default ∅ (Annotations hpa) !! k) /\
    Namespace sent = Namespace hpa /\
    ObjName sent = ObjName hpa /\
    Metrics sent = Metrics hpa.
Proof.
  intros HS HL HA Hne.
  destruct (syncHPA_sends_merge key namespace name hpa am w HS HL HA Hne)
    as (res & w' & Hsync & Hup).
  exists res, w', (set_Annotations (Some (am ∪ default ∅ (Annotations hpa))) hpa),
    (am ∪ default ∅ (Annotations hpa)).
  split; [done|]. split; [done|]. split; [reflexivity|]. split; [|split].
  - intros k s Hk. by apply lookup_union_Some_l.
  - intros k Hk. by apply lookup_union_r.
  - done.
Qed.

(** Whenever [annotations] returns: a resource-type metric for cpu is
    mapped to the annotation key cpuTargetUtilization and one for memory to
    memoryTargetValue, the value being the decimal numeral of the metric's
    target average utilisation.  The loop body of [annotations] writes that
    entry, and when no later metric of the list targets the same resource
    the entry is in the result of [annotations] and in the annotation map
    of the object that [syncHPA] sends. *)
Lemma target_annotated_when_returning key namespace name hpa
    (pre post : list MetricSpec) metric r u am w :
  SplitMetaNamespaceKey key = inl (namespace, name) ->
  hpaLister v namespace name = inl hpa ->
  Metrics hpa = (pre ++ metric :: post)%list ->
  Resource metric = Some r ->
  AverageUtilization (Target r) = Some u ->
  annotations hpa = Val (Some am) ->
  let k := if String.eqb (Name r) ResourceCPU then "cpuTargetUtilization"
           else "memoryTargetValue" in
  Name r = ResourceCPU \/ Name r = ResourceMemory ->
  option_map Z.of_int (NilZero.int_of_string (Sprintf_d u)) = Some u /\
  (forall m : gmap string string,
     annotate_metric m metric = Val (<[k := Sprintf_d u]> m)) /\
  (forallb (fun later => negb (targets (Name r) later)) post = true ->
   am !! k = Some (Sprintf_d u) /\
   exists res w' sent a,
     sync key w = Returned res w' /\
     updates w' = (updates w ++ [ {| call_namespace := Namespace hpa;
                                    call_object := sent |} ])%list /\
     Annotations sent = Some a /\
     a !! k = Some (Sprintf_d u)).
Proof.
  intros HS HL HM HR HU HA k HN.
  split; [apply Sprintf_d_decimal|].
  assert (Hstep : forall m : gmap string string,
             annotate_metric m metric = Val (<[k := Sprintf_d u]> m)).
  { intros m. subst k. destruct HN as [HN|HN]; rewrite HN.
    - by apply (annotate_metric_cpu m metric r u).
    - by apply (annotate_metric_memory m metric r u). }
  split; [done|]. intros Hlast.
  destruct (annotations_split hpa pre post metric am HM HA) as (m0 & m1 & _ & H1 & H2).
  rewrite Hstep in H1. injection H1 as <-.
  assert (Hk : am !! k = Some (Sprintf_d u)).
  { subst k. destruct HN as [HN|HN]; rewrite HN in Hlast, H2 |- *.
    - change (am !! "cpuTargetUtilization" = Some (Sprintf_d u)).
      rewrite (annotate_metrics_keep_cpu post _ _ Hlast H2). apply lookup_insert_eq.
    - change (am !! "memoryTargetValue" = Some (Sprintf_d u)).
      rewrite (annotate_metrics_keep_memory post _ _ Hlast H2). apply lookup_insert_eq. }
  split; [done|].
  assert (Hne : am <> ∅) by (intros ->; by rewrite lookup_empty in Hk).
  destruct (syncHPA_sends_merge key namespace name hpa am w HS HL HA Hne)
    as (res & w' & Hsync & Hup).
  exists res, w', (set_Annotations (Some (am ∪ default ∅ (Annotations hpa))) hpa),
    (am ∪ default ∅ (Annotations hpa)).
  split; [done|]. split; [done|]. split; [reflexivity|]. by apply lookup_union_Some_l.
Qed.

(** Whenever the first call returns: two calls of [syncHPA] in a row for
    a key whose cached resource does not change make two identical remote
    update calls: the second call sends the same object again, and nothing
    is compared with what was written before. *)
Lemma syncHPA_twice_when_returning key namespace name hpa w r1 w1 :
  SplitMetaNamespaceKey key = inl (namespace, name) ->
  hpaLister v namespace name = inl hpa ->
  existsb is_resource_metric (Metrics hpa) = true ->
  sync key w = Returned r1 w1 ->
  exists am r2 w2,
    annotations hpa = Val am /\
    sync key w1 = Returned r2 w2 /\
    let c := {| call_namespace := Namespace hpa;
                call_object := merge_annotations am hpa |} in
    updates w1 = (updates w ++ [c])%list /\
    updates w2 = (updates w ++ [c; c])%list.
Proof.
  intros HS HL _ H1.
  destruct (annotations hpa) as [am|] eqn:HA.
  - rewrite (syncHPA_found key namespace name hpa am w HS HL HA) in H1.
    injection H1 as <- <-.
    exists am. eexists _, _. split; [done|].
    split; [apply (syncHPA_found key namespace name hpa am _ HS HL HA)|].
    cbn. split; [done|]. by rewrite <- app_assoc.
  - by rewrite (syncHPA_panics key namespace name hpa w HS HL HA) in H1.
Qed.

(** Every call on a cached resource all of whose cpu and memory metrics
    carry a utilisation target returns. *)
Lemma syncHPA_returns key namespace name hpa w :
  SplitMetaNamespaceKey key = inl (namespace, name) ->
  hpaLister v namespace name = inl hpa ->
  forallb target_set (Metrics hpa) = true ->
  exists res w', sync key w = Returned res w'.
Proof.
  intros HS HL HT. apply annotations_returns in HT as [am HA].
  rewrite (syncHPA_found key namespace name hpa am w HS HL HA). eauto.
Qed.


End Reconcile.

(** ** The value of an annotation when several metrics target one resource *)

(** Whenever [annotations] returns: when the metrics list holds more
    than one resource-type metric for the same resource, the computed
    annotation of that resource is the decimal numeral of the target
    average utilisation of the last of them in list order: later entries
    overwrite earlier ones. *)
Lemma last_metric_wins_when_returning (hpa : HorizontalPodAutoscaler)
    (pre post : list MetricSpec) (metric : MetricSpec)
    (r : ResourceMetricSource) (u : Z) (am : gmap string string) :
  Metrics hpa = (pre ++ metric :: post)%list ->
  Resource metric = Some r ->
  AverageUtilization (Target r) = Some u ->
  existsb (targets (Name r)) pre = true ->
  forallb (fun later => negb (targets (Name r) later)) post = true ->
  annotations hpa = Val (Some am) ->
  (Name r = ResourceCPU -> am !! "cpuTargetUtilization" = Some (Sprintf_d u)) /\
  (Name r = ResourceMemory -> am !! "memoryTargetValue" = Some (Sprintf_d u)).
Proof.
  intros HM HR HU _ Hlast HA.
  destruct (annotations_split hpa pre post metric am HM HA) as (m0 & m1 & _ & H1 & H2).
  split; intros HN; rewrite HN in Hlast.
  - rewrite (annotate_metric_cpu m0 metric r u HR HN HU) in H1. injection H1 as <-.
    rewrite (annotate_metrics_keep_cpu post _ _ Hlast H2). apply lookup_insert_eq.
  - rewrite (annotate_metric_memory m0 metric r u HR HN HU) in H1. injection H1 as <-.
    rewrite (annotate_metrics_keep_memory post _ _ Hlast H2). apply lookup_insert_eq.
Qed.

(** A cpu or memory metric without a utilisation target anywhere in
    the list makes [annotations] panic. *)
Lemma annotations_nil_target_panics (hpa : HorizontalPodAutoscaler)
    (metric : MetricSpec) (r : ResourceMetricSource) :
  metric ∈ Metrics hpa ->
  Resource metric = Some r ->
  Name r = ResourceCPU \/ Name r = ResourceMemory ->
  AverageUtilization (Target r) = None ->
  annotations hpa = Panic.
Proof.
  intros Hin HR HN HU.
  destruct (annotations hpa) as [am|] eqn:E; [|done]. exfalso.
  assert (HT : forallb target_set (Metrics hpa) = true)
    by (apply annotations_returns; eauto).
  rewrite forallb_forall in HT. apply list_elem_of_In in Hin.
  specialize (HT metric Hin). unfold target_set in HT. rewrite HR, HU in HT.
  destruct HN as [HN|HN]; rewrite HN in HT; discriminate.
Qed.

(** ** The retry policy *)

Section Retry.

Implicit Types (key : string) (w : World) (e : error).

Lemma handleErr_requeues e key w :
  (workqueue.NumRequeues key (queue w) < maxRetries)%nat ->
  handleErr (Some e) key w =
  Returned tt (set_queue (workqueue.AddRateLimited key)
                 (add_log (klog_V_Info 2 "Error syncing hpa, retrying." key) w)).
Proof.
  intros Hlt. apply Nat.ltb_lt in Hlt.
  unfold handleErr, bind, read, act. by rewrite Hlt.
Qed.

Lemma handleErr_drops e key w :
  (maxRetries <= workqueue.NumRequeues key (queue w))%nat ->
  handleErr (Some e) key w =
  Returned tt (add_handled e
                 (set_queue (workqueue.Forget key)
                    (add_log (klog_V_Info 4 "Dropping hpa out of the queue" key) w))).
Proof.
  intros Hge. apply Nat.ltb_ge in Hge.
  unfold handleErr, bind, read, act. by rewrite Hge.
Qed.

Lemma NumRequeues_Forget key (q : workqueue.Queue) :
  workqueue.NumRequeues key (workqueue.Forget key q) = O.
Proof. unfold workqueue.NumRequeues, workqueue.Forget. simpl. by rewrite lookup_delete_eq. Qed.

Lemma NumRequeues_AddRateLimited key (q : workqueue.Queue) :
  workqueue.NumRequeues key (workqueue.AddRateLimited key q) =
  S (workqueue.NumRequeues key q).
Proof.
  unfold workqueue.NumRequeues at 1, workqueue.AddRateLimited. simpl.
  by rewrite lookup_insert_eq.
Qed.

(** The first [maxRetries] failures of a key in a row are all requeued. *)
Lemma fail_times_below e key w (n : nat) :
  workqueue.NumRequeues key (queue w) = O ->
  workqueue.shuttingDown (queue w) = false ->
  (n <= maxRetries)%nat ->
  workqueue.NumRequeues key (queue (fail_times n e key w)) = n /\
  workqueue.waiting (queue (fail_times n e key w)) =
    (workqueue.waiting (queue w) ++ replicate n key)%list /\
  workqueue.shuttingDown (queue (fail_times n e key w)) = false /\
  handled (fail_times n e key w) = handled w /\
  updates (fail_times n e key w) = updates w.
Proof.
  intros H0 Hs. induction n as [|n IH]; intros Hn.
  - simpl. rewrite app_nil_r. auto.
  - destruct IH as (IH1 & IH2 & IH3 & IH4 & IH5); [lia|].
    cbn [fail_times]. rewrite handleErr_requeues by (rewrite IH1; lia).
    cbn [final set_queue add_log queue handled updates].
    rewrite NumRequeues_AddRateLimited, IH1.
    unfold workqueue.AddRateLimited at 1 2. cbn [workqueue.waiting workqueue.shuttingDown].
    rewrite IH3, IH2. repeat split; try done.
    rewrite <- app_assoc. f_equal.
    change (replicate n key ++ [key])%list with (replicate n key ++ replicate 1 key)%list.
    rewrite <- replicate_add. f_equal. lia.
Qed.

(** C4: a failure of a key whose retry counter has reached 15 makes
    [handleErr] forget the key, so that its counter is zero again, and
    report the error to the error sink, and the key is not requeued; a
    failure with a counter below 15 re-adds the key with
    [AddRateLimited].  Hence of sixteen failures in a row the first
    fifteen are requeued and the sixteenth is not. *)
Theorem handleErr_retry_ceiling e key w :
  let n := workqueue.NumRequeues key (queue w) in
  exists w',
    handleErr (Some e) key w = Returned tt w' /\
    updates w' = updates w /\
    ((maxRetries <= n)%nat ->
     queue w' = workqueue.Forget key (queue w) /\
     workqueue.NumRequeues key (queue w') = O /\
     workqueue.waiting (queue w') = workqueue.waiting (queue w) /\
     workqueue.items (queue w') = workqueue.items (queue w) /\
     handled w' = (handled w ++ [e])%list) /\
    ((n < maxRetries)%nat ->
     queue w' = workqueue.AddRateLimited key (queue w) /\
     workqueue.NumRequeues key (queue w') = S n /\
     handled w' = handled w) /\
    (n = O -> workqueue.shuttingDown (queue w) = false ->
     let w16 := fail_times 16 e key w in
     workqueue.waiting (queue w16) =
       (workqueue.waiting (queue w) ++ replicate 15 key)%list /\
     workqueue.NumRequeues key (queue w16) = O /\
     handled w16 = (handled w ++ [e])%list).
Proof.
  intros n. subst n.
  destruct (Nat.ltb (workqueue.NumRequeues key (queue w)) maxRetries) eqn:E.
  - apply Nat.ltb_lt in E. rewrite (handleErr_requeues e key w E).
    eexists. split; [reflexivity|]. split; [done|]. split; [lia|]. split.
    + intros _. cbn [set_queue add_log queue handled].
      by rewrite NumRequeues_AddRateLimited.
    + intros H0 Hs.
      destruct (fail_times_below e key w 15 H0 Hs) as (F1 & F2 & F3 & F4 & F5);
        [unfold maxRetries; lia|].
      change (fail_times 16 e key w)
        with (final (handleErr (Some e) key (fail_times 15 e key w))).
      rewrite handleErr_drops by (rewrite F1; unfold maxRetries; lia).
      cbn [final add_handled set_queue add_log queue handled].
      rewrite NumRequeues_Forget, F4.
      unfold workqueue.Forget. cbn [workqueue.waiting]. by rewrite F2.
  - apply Nat.ltb_ge in E. rewrite (handleErr_drops e key w E).
    eexists. split; [reflexivity|]. split; [done|]. split.
    + intros _. cbn [add_handled set_queue add_log queue handled].
      by rewrite NumRequeues_Forget.
    + split; [lia|]. intros H0. rewrite H0 in E. unfold maxRetries in E. lia.
Qed.

End Retry.

(** ** Start-up *)

(** C7: when the wait for the initial cache sync is not satisfied,
    [Run] returns the error "failed to wait for caches to sync" and has
    launched no worker loop: no reconcile runs and no update call is
    made; the deferred calls have shut the queue down. *)
Theorem Run_unsynced (workers : Z) (w : World) :
  exists w',
    Run workers false w =
      Returned (Some (Errorf "failed to wait for caches to sync")) w' /\
    launched w' = launched w /\
    updates w' = updates w /\
    handled w' = handled w /\
    queue w' = workqueue.ShutDown (queue w).
Proof. eexists. split; [reflexivity | done]. Qed.

(** ** The defect: a cpu or memory metric without a utilisation target *)

(** C2: metrics of other kinds contribute nothing, and so do resource
    metrics for resources other than cpu and memory; but for a cpu metric
    whose target is an average value, so that its utilisation pointer is
    nil, [annotations] dereferences the nil pointer: the call panics, and
    [syncHPA] panics with it before any update is sent. *)
Theorem annotations_panics_on_average_value_target :
  let hpa := web None [pods_metric; average_value_metric ResourceCPU] in
  annotate_metric ∅ pods_metric = Val ∅ /\
  annotate_metric ∅ (average_value_metric "storage") = Val ∅ /\
  annotate_metric ∅ (average_value_metric ResourceCPU) = Panic /\
  annotate_metric ∅ (average_value_metric ResourceMemory) = Panic /\
  annotations hpa = Panic /\
  exists w',
    syncHPA cache.SplitMetaNamespaceKey (controller_of hpa) "prod/web" world0
      = Panicked w' /\
    updates w' = [].
Proof.
  cbv zeta. repeat split; try reflexivity.
  eexists. split; [vm_compute; reflexivity | reflexivity].
Qed.

(** C3: a resource with the one cpu metric of target 80 yields an update
    whose annotation map has cpuTargetUtilization = "80", and the loop body
    of [annotations] maps a cpu metric to the key cpuTargetUtilization and
    a memory metric to the key memoryTargetValue, the value being the
    decimal numeral of the target.  But the mapping does not hold for every
    resource with at least one metric: when a memory metric with an
    average-value target follows the cpu metric of target 80, the loop has
    written cpuTargetUtilization = "80" and then dereferences the nil
    utilisation pointer of the memory metric, so that [annotations] panics,
    no annotation is computed and [syncHPA] sends no update. *)
Theorem cpu_annotation_lost_on_nil_memory_target :
  let good := web None [resource_metric ResourceCPU 80] in
  let hpa := web None [resource_metric ResourceCPU 80;
                       average_value_metric ResourceMemory] in
  (exists res w' sent a,
     syncHPA cache.SplitMetaNamespaceKey (controller_of good) "prod/web" world0
       = Returned res w' /\
     updates w' = [ {| call_namespace := "prod"; call_object := sent |} ] /\
     Annotations sent = Some a /\
     a !! "cpuTargetUtilization" = Some "80") /\
  annotate_metric ∅ (resource_metric ResourceCPU 80)
    = Val {["cpuTargetUtilization" := "80"]} /\
  annotate_metric ∅ (resource_metric ResourceMemory 60)
    = Val {["memoryTargetValue" := "60"]} /\
  Metrics hpa <> [] /\
  annotate_metric {["cpuTargetUtilization" := "80"]}
    (average_value_metric ResourceMemory) = Panic /\
  annotations hpa = Panic /\
  exists w',
    syncHPA cache.SplitMetaNamespaceKey (controller_of hpa) "prod/web" world0
      = Panicked w' /\
    updates w' = [].
Proof.
  cbv zeta. split.
  { eexists _, _, _, _. split; [vm_compute; reflexivity|].
    split; [reflexivity|]. split; [reflexivity|]. vm_compute. reflexivity. }
  split; [vm_compute; reflexivity|]. split; [vm_compute; reflexivity|].
  split; [discriminate|]. split; [reflexivity|]. split; [reflexivity|].
  eexists. split; [vm_compute; reflexivity | reflexivity].
Qed.

(** C8: two calls of [syncHPA] in succession on the unchanged resource
    with the one cpu metric of target 80 make two identical update calls,
    nothing being compared with the earlier write.  But this does not hold
    for every resource with at least one resource-type metric: when the one
    metric is a cpu metric with an average-value target, the first call
    panics on the nil utilisation pointer before any update is sent, and a
    second call from the state it leaves does the same, so that no update
    call is made at all. *)
Theorem syncHPA_twice_sends_nothing_on_nil_target :
  let good := web None [resource_metric ResourceCPU 80] in
  let hpa := web None [average_value_metric ResourceCPU] in
  (exists w1 w2 c a,
     syncHPA cache.SplitMetaNamespaceKey (controller_of good) "prod/web" world0
       = Returned None w1 /\
     syncHPA cache.SplitMetaNamespaceKey (controller_of good) "prod/web" w1
       = Returned None w2 /\
     updates w2 = [c; c] /\
     Annotations (call_object c) = Some a /\
     a !! "cpuTargetUtilization" = Some "80") /\
  existsb is_resource_metric (Metrics hpa) = true /\
  annotations hpa = Panic /\
  exists w1 w2,
    syncHPA cache.SplitMetaNamespaceKey (controller_of hpa) "prod/web" world0
      = Panicked w1 /\
    updates w1 = [] /\
    syncHPA cache.SplitMetaNamespaceKey (controller_of hpa) "prod/web" w1
      = Panicked w2 /\
    updates w2 = [].
Proof.
  cbv zeta. split.
  { eexists _, _, _, _. split; [vm_compute; reflexivity|].
    split; [vm_compute; reflexivity|]. split; [reflexivity|].
    split; [reflexivity|]. vm_compute. reflexivity. }
  split; [reflexivity|]. split; [reflexivity|].
  eexists _, _. split; [vm_compute; reflexivity|]. split; [reflexivity|].
  split; [vm_compute; reflexivity | reflexivity].
Qed.

(** C9: of two cpu metrics with targets 70 and 80 the computed annotation
    is that of the last one, "80": later entries overwrite earlier ones.
    But this does not hold for every resource with more than one metric of
    a kind: when a memory metric with an average-value target follows the
    two cpu metrics, or when the last cpu metric itself has an
    average-value target, [annotations] panics on the nil utilisation
    pointer; there is no computed annotation for cpu and [syncHPA] sends no
    update. *)
Theorem last_metric_value_lost_on_nil_target :
  let good := web None [resource_metric ResourceCPU 70; resource_metric ResourceCPU 80] in
  let hpa := web None [resource_metric ResourceCPU 70; resource_metric ResourceCPU 80;
                       average_value_metric ResourceMemory] in
  let hpa' := web None [resource_metric ResourceCPU 70;
                        average_value_metric ResourceCPU] in
  (exists am, annotations good = Val (Some am) /\
     am !! "cpuTargetUtilization" = Some "80") /\
  annotations hpa = Panic /\
  annotations hpa' = Panic /\
  (exists w',
     syncHPA cache.SplitMetaNamespaceKey (controller_of hpa) "prod/web" world0
       = Panicked w' /\
     updates w' = []) /\
  (exists w',
     syncHPA cache.SplitMetaNamespaceKey (controller_of hpa') "prod/web" world0
       = Panicked w' /\
     updates w' = []).
Proof.
  cbv zeta. split.
  { eexists. split; [vm_compute; reflexivity|]. vm_compute. reflexivity. }
  split; [reflexivity|]. split; [reflexivity|].
  split; eexists; (split; [vm_compute; reflexivity | reflexivity]).
Qed.

(** ** Concrete resources *)

(** C1 as stated fails: for a cached resource without metrics [syncHPA]
    does make an update call, and when the API server rejects that call
    [syncHPA] returns the error. *)
Lemma syncHPA_zero_metrics_still_updates :
  let hpa := web None [] in
  let rejecting := {| client := reject_all; hpaLister := cache_of hpa |} in
  Metrics hpa = [] /\
  (exists w',
     syncHPA cache.SplitMetaNamespaceKey (controller_of hpa) "prod/web" world0
       = Returned None w' /\
     updates w' = [ {| call_namespace := "prod"; call_object := hpa |} ] /\
     updates w' <> updates world0) /\
  (exists e w',
     syncHPA cache.SplitMetaNamespaceKey rejecting "prod/web" world0
       = Returned (Some e) w' /\
     updates w' = [ {| call_namespace := "prod"; call_object := hpa |} ]).
Proof.
  cbv zeta. split; [reflexivity|]. split.
  - eexists. split; [vm_compute; reflexivity|]. split; [reflexivity | discriminate].
  - eexists _, _. split; [vm_compute; reflexivity | reflexivity].
Qed.

Lemma syncHPA_zero_metrics_witness :
  let hpa := web (Some {["owner" := "team-a"]}) [] in
  let c := {| call_namespace := "prod"; call_object := hpa |} in
  annotations hpa = Val None /\
  exists w',
    syncHPA cache.SplitMetaNamespaceKey (controller_of hpa) "prod/web" world0
      = Returned None w' /\
    updates w' = [c] /\
    queue w' = queue world0 /\ handled w' = handled world0.
Proof.
  exact (syncHPA_zero_metrics cache.SplitMetaNamespaceKey
           (controller_of (web (Some {["owner" := "team-a"]}) []))
           "prod/web" "prod" "web" (web (Some {["owner" := "team-a"]}) []) world0
           eq_refl eq_refl eq_refl).
Defined.

Lemma syncHPA_not_found_witness :
  exists w',
    syncHPA cache.SplitMetaNamespaceKey (controller_of (web None [])) "prod/gone" world0
      = Returned None w' /\
    updates w' = updates world0 /\ queue w' = queue world0 /\
    handled w' = handled world0.
Proof.
  exact (syncHPA_not_found cache.SplitMetaNamespaceKey (controller_of (web None []))
           "prod/gone" "prod" "gone" (StatusError "NotFound" "gone") world0
           eq_refl eq_refl eq_refl).
Defined.

Lemma syncHPA_merges_annotations_witness :
  let hpa := web (Some {["owner" := "team-a"; "cpuTargetUtilization" := "50"]})
               [resource_metric ResourceCPU 70; resource_metric ResourceMemory 60] in
  exists res w' sent a,
    syncHPA cache.SplitMetaNamespaceKey (controller_of hpa) "prod/web" world0
      = Returned res w' /\
    updates w' = [ {| call_namespace := "prod"; call_object := sent |} ] /\
    Annotations sent = Some a /\
    a !! "cpuTargetUtilization" = Some "70" /\
    a !! "memoryTargetValue" = Some "60" /\
    a !! "owner" = Some "team-a" /\
    Namespace sent = "prod" /\ ObjName sent = "web" /\
    Metrics sent = [resource_metric ResourceCPU 70; resource_metric ResourceMemory 60].
Proof.
  cbv zeta.
  destruct (syncHPA_merges_annotations cache.SplitMetaNamespaceKey
              (controller_of
                 (web (Some {["owner" := "team-a"; "cpuTargetUtilization" := "50"]})
                    [resource_metric ResourceCPU 70; resource_metric ResourceMemory 60]))
              "prod/web" "prod" "web"
              (web (Some {["owner" := "team-a"; "cpuTargetUtilization" := "50"]})
                 [resource_metric ResourceCPU 70; resource_metric ResourceMemory 60])
              {["cpuTargetUtilization" := "70"; "memoryTargetValue" := "60"]}
              world0 eq_refl eq_refl)
    as (res & w' & sent & a & Hsync & Hup & Ha & Hin & Hkeep & Hns & Hname & Hm).
  - vm_compute. reflexivity.
  - intros H. apply (f_equal (fun m : gmap string string => m !! "memoryTargetValue")) in H.
    vm_compute in H. discriminate.
  - exists res, w', sent, a. split; [exact Hsync|]. split; [exact Hup|].
    split; [exact Ha|].
    split; [apply Hin; vm_compute; reflexivity|].
    split; [apply Hin; vm_compute; reflexivity|].
    split; [rewrite Hkeep; vm_compute; reflexivity|].
    split; [exact Hns|]. split; [exact Hname | exact Hm].
Defined.


Lemma handleErr_retry_ceiling_witness :
  let e := StatusError "Conflict" "the object has been modified" in
  let w15 := fail_times 15 e "prod/web" world0 in
  workqueue.NumRequeues "prod/web" (queue w15) = 15%nat /\
  workqueue.waiting (queue w15) = replicate 15 "prod/web" /\
  exists w',
    handleErr (Some e) "prod/web" w15 = Returned tt w' /\
    workqueue.NumRequeues "prod/web" (queue w') = O /\
    workqueue.waiting (queue w') = replicate 15 "prod/web" /\
    handled w' = [e].
Proof.
  cbv zeta. split; [reflexivity|]. split; [reflexivity|].
  destruct (handleErr_retry_ceiling
              (StatusError "Conflict" "the object has been modified") "prod/web"
              (fail_times 15 (StatusError "Conflict" "the object has been modified")
                 "prod/web" world0))
    as (w' & Herr & _ & Hdrop & _).
  destruct Hdrop as (_ & Hn & Hw & _ & Hh).
  - vm_compute. lia.
  - exists w'. split; [exact Herr|]. split; [exact Hn|].
    split; [rewrite Hw; reflexivity | rewrite Hh; reflexivity].
Defined.

(** ** The worker step *)

(** On an empty queue a worker waits, and after the shutdown it stops. *)
Lemma processNextWorkItem_empty
    (split : string -> (string * string + error)%type) (v : HPAController) (w : World) :
  workqueue.items (queue w) = [] ->
  processNextWorkItem split v w =
  if workqueue.shuttingDown (queue w)
  then Some (Returned false (set_queue (fun _ => queue w) w))
  else None.
Proof.
  intros H. unfold processNextWorkItem, workqueue.Get. rewrite H.
  by destruct (workqueue.shuttingDown (queue w)).
Qed.

(** A key that cannot be split goes through a worker step as a failed
    sync: the step requeues it and marks it done. *)
Lemma processNextWorkItem_bad_key :
  let w := set_queue (workqueue.Add "a/b/c") world0 in
  exists w',
    processNextWorkItem cache.SplitMetaNamespaceKey (controller_of (web None [])) w
      = Some (Returned true w') /\
    workqueue.waiting (queue w') = ["a/b/c"] /\
    workqueue.NumRequeues "a/b/c" (queue w') = 1%nat /\
    workqueue.processing (queue w') = ∅ /\
    handled w' = [] /\ updates w' = [].
Proof.
  cbv zeta. eexists. split; [vm_compute; reflexivity|].
  repeat split; vm_compute; reflexivity.
Qed.

(** ** More on [annotations] *)

Section AnnotationsMore.

Implicit Types (m am : gmap string string) (metric : MetricSpec)
  (metrics : list MetricSpec) (hpa : HorizontalPodAutoscaler).

Lemma annotations_some_inv hpa am :
  annotations hpa = Val (Some am) ->
  annotate_metrics ∅ (Metrics hpa) = Val am /\ Metrics hpa <> [].
Proof.
  unfold annotations. destruct (Metrics hpa) as [|metric metrics]; [done|].
  change (Nat.eqb (length (metric :: metrics)) 0) with false. cbv iota.
  destruct (annotate_metrics ∅ (metric :: metrics)) as [m|]; [|done].
  simpl. by intros [= ->].
Qed.

Lemma no_target_forallb (name : ResourceName) metrics :
  existsb (targets name) metrics = false ->
  forallb (fun later => negb (targets name later)) metrics = true.
Proof.
  induction metrics as [|metric metrics IH]; simpl; [done|].
  rewrite orb_false_iff. intros [-> H]. simpl. by apply IH.
Qed.

Lemma annotate_metrics_cpu_present metrics : forall m m',
  annotate_metrics m metrics = Val m' ->
  existsb (targets ResourceCPU) metrics = true ->
  is_Some (m' !! "cpuTargetUtilization").
Proof.
  induction metrics as [|metric metrics IH]; simpl; intros m m' H Hex; [done|].
  destruct (annotate_metric m metric) as [m1|] eqn:E; simpl in H; [|done].
  destruct (existsb (targets ResourceCPU) metrics) eqn:Erest.
  - by apply (IH m1).
  - rewrite orb_false_r in Hex.
    rewrite (annotate_metrics_keep_cpu metrics m1 m' (no_target_forallb _ _ Erest) H).
    unfold targets in Hex. unfold annotate_metric in E.
    destruct (Resource metric) as [r|]; [|done]. rewrite Hex in E.
    destruct (AverageUtilization (Target r)) as [u|]; simpl in E; [|done].
    change (String.eqb (Name r) ResourceCPU = true) in Hex.
    apply String.eqb_eq in Hex. rewrite Hex in E. simpl in E.
    injection E as <-. rewrite lookup_insert_eq. eauto.
Qed.

Lemma annotate_metrics_memory_present metrics : forall m m',
  annotate_metrics m metrics = Val m' ->
  existsb (targets ResourceMemory) metrics = true ->
  is_Some (m' !! "memoryTargetValue").
Proof.
  induction metrics as [|metric metrics IH]; simpl; intros m m' H Hex; [done|].
  destruct (annotate_metric m metric) as [m1|] eqn:E; simpl in H; [|done].
  destruct (existsb (targets ResourceMemory) metrics) eqn:Erest.
  - by apply (IH m1).
  - rewrite orb_false_r in Hex.
    rewrite (annotate_metrics_keep_memory metrics m1 m' (no_target_forallb _ _ Erest) H).
    unfold targets in Hex. unfold annotate_metric in E.
    destruct (Resource metric) as [r|]; [|done].
    apply String.eqb_eq in Hex. rewrite Hex in E. simpl in E.
    destruct (AverageUtilization (Target r)) as [u|]; simpl in E; [|done].
    injection E as <-. rewrite lookup_insert_eq. eauto.
Qed.

Lemma unset_target_found metrics :
  forallb target_set metrics = false ->
  exists metric, metric ∈ metrics /\ target_set metric = false.
Proof.
  induction metrics as [|metric metrics IH]; simpl; [done|].
  destruct (target_set metric) eqn:E; simpl.
  - intros H. destruct (IH H) as (x & Hin & Hx). exists x. split; [by right | done].
  - intros _. exists metric. split; [by left | done].
Qed.

(** X1: [annotations] panics exactly when some metric of the list is a
    resource metric for cpu or memory whose average-utilisation pointer
    is nil; on every other list of metrics it returns. *)
Theorem annotations_panics_iff hpa :
  annotations hpa = Panic <->
  exists metric r,
    metric ∈ Metrics hpa /\ Resource metric = Some r /\
    (Name r = ResourceCPU \/ Name r = ResourceMemory) /\
    AverageUtilization (Target r) = None.
Proof.
  split.
  - intros HP.
    destruct (forallb target_set (Metrics hpa)) eqn:E.
    + apply annotations_returns in E as [am E]. congruence.
    + apply unset_target_found in E as (metric & Hin & E).
      exists metric. unfold target_set in E.
      destruct (Resource metric) as [r|]; [|done]. exists r.
      split; [done|]. split; [done|].
      destruct (String.eqb (Name r) ResourceCPU) eqn:Ec.
      * apply String.eqb_eq in Ec. simpl in E.
        destruct (AverageUtilization (Target r)); [|auto].
        apply bool_decide_eq_false in E. destruct E. eauto.
      * destruct (String.eqb (Name r) ResourceMemory) eqn:Em; [|done].
        apply String.eqb_eq in Em. simpl in E.
        destruct (AverageUtilization (Target r)); [|auto].
        apply bool_decide_eq_false in E. destruct E. eauto.
  - intros (metric & r & Hin & HR & HN & HU).
    by apply (annotations_nil_target_panics hpa metric r).
Qed.

(** X2: the map that [annotations] returns has the key
    cpuTargetUtilization exactly when some metric is a resource metric
    for cpu, the key memoryTargetValue exactly when some metric is one
    for memory, and no other key. *)
Theorem annotations_keys hpa am :
  annotations hpa = Val (Some am) ->
  (is_Some (am !! "cpuTargetUtilization") <->
   existsb (targets ResourceCPU) (Metrics hpa) = true) /\
  (is_Some (am !! "memoryTargetValue") <->
   existsb (targets ResourceMemory) (Metrics hpa) = true) /\
  (forall k, k <> "cpuTargetUtilization" -> k <> "memoryTargetValue" ->
             am !! k = None).
Proof.
  intros HA. apply annotations_some_inv in HA as [HA _]. repeat split.
  - intros Hs. destruct (existsb (targets ResourceCPU) (Metrics hpa)) eqn:E; [done|].
    rewrite (annotate_metrics_keep_cpu _ _ _ (no_target_forallb _ _ E) HA) in Hs.
    rewrite lookup_empty in Hs. by destruct Hs.
  - by apply (annotate_metrics_cpu_present (Metrics hpa) ∅).
  - intros Hs. destruct (existsb (targets ResourceMemory) (Metrics hpa)) eqn:E; [done|].
    rewrite (annotate_metrics_keep_memory _ _ _ (no_target_forallb _ _ E) HA) in Hs.
    rewrite lookup_empty in Hs. by destruct Hs.
  - by apply (annotate_metrics_memory_present (Metrics hpa) ∅).
  - intros k Hc Hm.
    by rewrite (annotate_metrics_other_keys _ _ _ k Hc Hm HA), lookup_empty.
Qed.

End AnnotationsMore.

(** ** More on [syncHPA] *)

Section ReconcileMore.

Variable SplitMetaNamespaceKey : string -> (string * string + error)%type.
Variable v : HPAController.

Implicit Types (key namespace name : string) (hpa : HorizontalPodAutoscaler)
  (w : World) (err e : error) (am : gmap string string).

Local Abbreviation sync := (syncHPA SplitMetaNamespaceKey v).

(** A call that returns on a cached object has computed its annotations. *)
Lemma syncHPA_returned_inv key namespace name hpa w res w' :
  SplitMetaNamespaceKey key = inl (namespace, name) ->
  hpaLister v namespace name = inl hpa ->
  sync key w = Returned res w' ->
  exists oam,
    annotations hpa = Val oam /\
    let c := {| call_namespace := Namespace hpa;
                call_object := merge_annotations oam hpa |} in
    res = match client v (updates w) c with
          | inr err => Some err
          | inl _ => None
          end /\
    updates w' = (updates w ++ [c])%list.
Proof.
  intros HS HL H. destruct (annotations hpa) as [oam|] eqn:HA.
  - rewrite (syncHPA_found _ _ key namespace name hpa oam w HS HL HA) in H.
    injection H as <- <-. exists oam. by split.
  - by rewrite (syncHPA_panics _ _ key namespace name hpa w HS HL HA) in H.
Qed.

Lemma annotate_metrics_skip_all (metrics : list MetricSpec) : forall am,
  forallb (fun metric => negb (targets ResourceCPU metric) &&
                         negb (targets ResourceMemory metric)) metrics = true ->
  annotate_metrics am metrics = Val am.
Proof.
  induction metrics as [|metric metrics IH]; simpl; intros am; [done|].
  rewrite !andb_true_iff, !negb_true_iff. intros [[Hc Hm] Hrest].
  rewrite (annotate_metric_skip am metric Hc Hm). simpl. by apply IH.
Qed.

(** The merge changes the annotation map only. *)
Lemma merge_annotations_fields (oam : option (gmap string string)) hpa :
  Namespace (merge_annotations oam hpa) = Namespace hpa /\
  ObjName (merge_annotations oam hpa) = ObjName hpa /\
  Metrics (merge_annotations oam hpa) = Metrics hpa.
Proof. unfold merge_annotations. by destruct (negb _). Qed.

(** The merge leaves every key that is not computed as it was. *)
Lemma merge_annotations_lookup (oam : option (gmap string string)) hpa (k : string) :
  default ∅ (Annotations (merge_annotations oam hpa)) !! k =
  match default ∅ oam !! k with
  | Some s => Some s
  | None => default ∅ (Annotations hpa) !! k
  end.
Proof.
  destruct oam as [am|].
  - change (default ∅ (Some am)) with am.
    destruct (decide (am = ∅)) as [->|Hne].
    + by rewrite merge_annotations_empty, lookup_empty.
    + rewrite (merge_annotations_some am hpa Hne).
      change (default ∅ (Annotations (set_Annotations (Some (am ∪ default ∅ (Annotations hpa))) hpa)))
        with (am ∪ default ∅ (Annotations hpa)).
      rewrite lookup_union.
      by destruct (am !! k), (default ∅ (Annotations hpa) !! k).
  - change (default ∅ (@None (gmap string string))) with (∅ : gmap string string).
    by rewrite merge_annotations_nil, lookup_empty.
Qed.

(** X3: for a cached resource none of whose metrics is a resource metric
    for cpu or memory (in particular one whose metrics are all of other
    kinds), [syncHPA] still makes one update call: it sends the object
    exactly as it is in the cache and returns the answer's error. *)
Theorem syncHPA_without_cpu_memory_metric key namespace name hpa w :
  SplitMetaNamespaceKey key = inl (namespace, name) ->
  hpaLister v namespace name = inl hpa ->
  forallb (fun metric => negb (targets ResourceCPU metric) &&
                         negb (targets ResourceMemory metric)) (Metrics hpa) = true ->
  let c := {| call_namespace := Namespace hpa; call_object := hpa |} in
  exists w',
    sync key w = Returned (match client v (updates w) c with
                           | inr err => Some err
                           | inl _ => None
                           end) w' /\
    updates w' = (updates w ++ [c])%list.
Proof.
  intros HS HL Hnone c.
  assert (HA : exists oam, annotations hpa = Val oam /\ merge_annotations oam hpa = hpa).
  { unfold annotations. destruct (Metrics hpa) as [|metric metrics] eqn:E.
    - exists None. by split.
    - change (Nat.eqb (length (metric :: metrics)) 0) with false. cbv iota.
      rewrite (annotate_metrics_skip_all _ ∅ Hnone). exists (Some ∅). by split. }
  destruct HA as (oam & HA & Hm).
  rewrite (syncHPA_found _ _ key namespace name hpa oam w HS HL HA). rewrite Hm.
  eexists. split; reflexivity.
Qed.

(** X5: a call of [syncHPA] that returns for a cached resource has made
    exactly one update call, to the namespace of the object, and its
    result is nil exactly when the API server accepted that call;
    otherwise it is the error of the API server. *)
Theorem syncHPA_returns_update_error key namespace name hpa w res w' :
  SplitMetaNamespaceKey key = inl (namespace, name) ->
  hpaLister v namespace name = inl hpa ->
  sync key w = Returned res w' ->
  exists sent,
    let c := {| call_namespace := Namespace hpa; call_object := sent |} in
    updates w' = (updates w ++ [c])%list /\
    (res = None <-> exists answer, client v (updates w) c = inl answer) /\
    (forall err, res = Some err <-> client v (updates w) c = inr err).
Proof.
  intros HS HL H.
  destruct (syncHPA_returned_inv key namespace name hpa w res w' HS HL H)
    as (oam & _ & Hres & Hup).
  exists (merge_annotations oam hpa). cbv zeta in *. split; [done|].
  rewrite Hres. destruct (client v (updates w) _) as [answer|err0].
  - split; [split; eauto | intros err; split; discriminate].
  - split.
    + split; [discriminate | intros [answer Ha]; discriminate].
    + intros err. split; intros [= ->]; reflexivity.
Qed.

(** The worlds before and after a call, whether it returns or panics. *)
Lemma syncHPA_final_frame key w :
  queue (final (sync key w)) = queue w /\
  handled (final (sync key w)) = handled w /\
  launched (final (sync key w)) = launched w /\
  (updates (final (sync key w)) = updates w \/
   exists c, updates (final (sync key w)) = (updates w ++ [c])%list) /\
  (forall w', sync key w = Panicked w' -> updates w' = updates w).
Proof.
  unfold syncHPA, defer, bind, lift, Update, act, ret, DeepCopy.
  destruct (SplitMetaNamespaceKey key) as [[namespace name]|err].
  - destruct (hpaLister v namespace name) as [hpa|err].
    + destruct (annotations hpa) as [oam|].
      * destruct (client v (updates w) _); cbn;
          (repeat split; [right; eauto | discriminate]).
      * cbn. repeat split; [by left | by intros w' [= <-]].
    + destruct (IsNotFound err); cbn;
        (repeat split; [by left | discriminate]).
  - cbn. repeat split; [by left | discriminate].
Qed.

(** X6: whatever the key and whatever the cache and the API server
    answer, one call of [syncHPA] makes at most one update call and has
    no other effect besides its log lines: it leaves the queue alone,
    reports nothing to the error sink, and when it panics it has made no
    update call. *)
Theorem syncHPA_effects key w :
  let o := sync key w in
  queue (final o) = queue w /\
  handled (final o) = handled w /\
  launched (final o) = launched w /\
  (updates (final o) = updates w \/
   exists c, updates (final o) = (updates w ++ [c])%list) /\
  (forall w', o = Panicked w' -> updates w' = updates w).
Proof. exact (syncHPA_final_frame key w). Qed.

(** X7: the object that [syncHPA] sends differs from the cached object
    in its annotation map at most, and there only under the two keys
    cpuTargetUtilization and memoryTargetValue: namespace, name and
    metrics are those of the cached object and every other annotation
    has the value it had (a nil map counting as empty). *)
Theorem syncHPA_sends_same_object key namespace name hpa w res w' :
  SplitMetaNamespaceKey key = inl (namespace, name) ->
  hpaLister v namespace name = inl hpa ->
  sync key w = Returned res w' ->
  exists sent,
    updates w' = (updates w ++ [ {| call_namespace := Namespace hpa;
                                    call_object := sent |} ])%list /\
    Namespace sent = Namespace hpa /\
    ObjName sent = ObjName hpa /\
    Metrics sent = Metrics hpa /\
    forall k : string,
      k <> "cpuTargetUtilization" -> k <> "memoryTargetValue" ->
      default ∅ (Annotations sent) !! k = default ∅ (Annotations hpa) !! k.
Proof.
  intros HS HL H.
  destruct (syncHPA_returned_inv key namespace name hpa w res w' HS HL H)
    as (oam & HA & _ & Hup).
  exists (merge_annotations oam hpa). split; [done|].
  destruct (merge_annotations_fields oam hpa) as (H1 & H2 & H3).
  do 3 (split; [done|]). intros k Hc Hm. rewrite merge_annotations_lookup.
  destruct oam as [am|].
  - apply annotations_some_inv in HA as [HA _].
    change (default ∅ (Some am)) with am.
    by rewrite (annotate_metrics_other_keys _ _ _ k Hc Hm HA), lookup_empty.
  - change (default ∅ (@None (gmap string string))) with (∅ : gmap string string).
    by rewrite lookup_empty.
Qed.

End ReconcileMore.

(** ** The steady state of the reconcile *)

Section SteadyState.

Variable SplitMetaNamespaceKey : string -> (string * string + error)%type.
Variables v v' : HPAController.

Implicit Types (key namespace name : string) (hpa : HorizontalPodAutoscaler)
  (w : World).

Lemma merge_annotations_idemp (oam : option (gmap string string)) hpa :
  merge_annotations oam (merge_annotations oam hpa) = merge_annotations oam hpa.
Proof.
  destruct oam as [am|]; [|done].
  destruct (decide (am = ∅)) as [->|Hne]; [done|].
  rewrite !(merge_annotations_some am _ Hne).
  unfold set_Annotations. cbn [Namespace ObjName Metrics Annotations default from_option id].
  do 2 f_equal. apply map_eq. intros k. rewrite !lookup_union.
  by destruct (am !! k), (default ∅ (Annotations hpa) !! k).
Qed.

Lemma annotations_merge (oam : option (gmap string string)) hpa :
  annotations (merge_annotations oam hpa) = annotations hpa.
Proof.
  unfold annotations.
  by destruct (merge_annotations_fields oam hpa) as (_ & _ & ->).
Qed.

(** X8: the reconcile reaches its steady state after one round: once
    the cache holds the object that a call of [syncHPA] has sent, the next
    call for the key sends that very object again, unchanged. *)
Theorem syncHPA_steady_state key namespace name hpa w res w1 w2 :
  SplitMetaNamespaceKey key = inl (namespace, name) ->
  hpaLister v namespace name = inl hpa ->
  syncHPA SplitMetaNamespaceKey v key w = Returned res w1 ->
  exists sent,
    let c := {| call_namespace := Namespace hpa; call_object := sent |} in
    updates w1 = (updates w ++ [c])%list /\
    (hpaLister v' namespace name = inl sent ->
     exists res' w3,
       syncHPA SplitMetaNamespaceKey v' key w2 = Returned res' w3 /\
       updates w3 = (updates w2 ++ [c])%list).
Proof.
  intros HS HL H.
  destruct (syncHPA_returned_inv _ _ key namespace name hpa w res w1 HS HL H)
    as (oam & HA & _ & Hup).
  exists (merge_annotations oam hpa). cbv zeta in *. split; [done|]. intros HL'.
  assert (HA' : annotations (merge_annotations oam hpa) = Val oam)
    by (by rewrite annotations_merge).
  rewrite (syncHPA_found _ _ key namespace name _ oam w2 HS HL' HA').
  rewrite merge_annotations_idemp.
  destruct (merge_annotations_fields oam hpa) as (-> & _ & _).
  eexists _, _. split; reflexivity.
Qed.

End SteadyState.

(** ** More on the retry policy *)

Section RetryMore.

Implicit Types (key : string) (w : World) (e : error).

(** [handleErr] always returns, and changes only the retry counter of
    its key, the keys that wait for their back-off, the log and the error
    sink. *)
Lemma handleErr_frame (err : option error) key w :
  exists w',
    handleErr err key w = Returned tt w' /\
    workqueue.items (queue w') = workqueue.items (queue w) /\
    workqueue.dirty (queue w') = workqueue.dirty (queue w) /\
    workqueue.processing (queue w') = workqueue.processing (queue w) /\
    workqueue.shuttingDown (queue w') = workqueue.shuttingDown (queue w) /\
    updates w' = updates w /\ launched w' = launched w /\
    (forall key', key' <> key ->
       workqueue.NumRequeues key' (queue w') = workqueue.NumRequeues key' (queue w)).
Proof.
  destruct err as [e|].
  - destruct (Nat.ltb (workqueue.NumRequeues key (queue w)) maxRetries) eqn:E.
    + apply Nat.ltb_lt in E. rewrite (handleErr_requeues e key w E).
      eexists. split; [reflexivity|]. repeat split.
      intros key' Hne. unfold workqueue.NumRequeues at 1. cbn.
      by rewrite lookup_insert_ne.
    + apply Nat.ltb_ge in E. rewrite (handleErr_drops e key w E).
      eexists. split; [reflexivity|]. repeat split.
      intros key' Hne. unfold workqueue.NumRequeues at 1. cbn.
      by rewrite lookup_delete_ne.
  - eexists. split; [reflexivity|]. repeat split.
    intros key' Hne. unfold workqueue.NumRequeues at 1. cbn.
    by rewrite lookup_delete_ne.
Qed.

(** X9: a successful sync resets the back-off of its key: [handleErr]
    with a nil error leaves the key's counter at zero, whatever it was,
    without a requeue or a report, so the next failure of the key is
    requeued as a first failure. *)
Theorem handleErr_success_resets key w :
  exists w1,
    handleErr None key w = Returned tt w1 /\
    workqueue.NumRequeues key (queue w1) = O /\
    workqueue.waiting (queue w1) = workqueue.waiting (queue w) /\
    handled w1 = handled w /\
    forall e, exists w2,
      handleErr (Some e) key w1 = Returned tt w2 /\
      workqueue.NumRequeues key (queue w2) = 1%nat /\
      handled w2 = handled w.
Proof.
  eexists. split; [reflexivity|]. cbn [set_queue queue handled].
  rewrite NumRequeues_Forget. do 3 (split; [reflexivity|]).
  intros e. rewrite handleErr_requeues
    by (cbn [set_queue queue]; rewrite NumRequeues_Forget; unfold maxRetries; lia).
  eexists. split; [reflexivity|]. cbn [set_queue add_log queue handled].
  by rewrite NumRequeues_AddRateLimited, NumRequeues_Forget.
Qed.

(** X10: retries are counted per key: [handleErr] for one key, with or
    without an error, leaves the retry counter of every other key as it
    was, and it never changes the pending keys, the keys being processed
    or the shutdown flag of the queue, nor makes an update call. *)
Theorem handleErr_other_keys (err : option error) key w :
  exists w',
    handleErr err key w = Returned tt w' /\
    (forall key', key' <> key ->
       workqueue.NumRequeues key' (queue w') = workqueue.NumRequeues key' (queue w)) /\
    workqueue.items (queue w') = workqueue.items (queue w) /\
    workqueue.processing (queue w') = workqueue.processing (queue w) /\
    workqueue.shuttingDown (queue w') = workqueue.shuttingDown (queue w) /\
    updates w' = updates w.
Proof.
  destruct (handleErr_frame err key w) as (w' & H & Hi & _ & Hp & Hs & Hu & _ & Hk).
  exists w'. auto 10.
Qed.

Lemma fail_times_add e key (a b : nat) w :
  fail_times (b + a) e key w = fail_times b e key (fail_times a e key w).
Proof. induction b as [|b IH]; simpl; [done | by rewrite IH]. Qed.

(** Sixteen failures in a row, from a counter of zero: fifteen requeues
    and the drop. *)
Lemma fail_times_round e key w :
  workqueue.NumRequeues key (queue w) = O ->
  workqueue.shuttingDown (queue w) = false ->
  workqueue.NumRequeues key (queue (fail_times 16 e key w)) = O /\
  workqueue.shuttingDown (queue (fail_times 16 e key w)) = false /\
  workqueue.waiting (queue (fail_times 16 e key w)) =
    (workqueue.waiting (queue w) ++ replicate 15 key)%list /\
  handled (fail_times 16 e key w) = (handled w ++ [e])%list.
Proof.
  intros H0 Hs.
  destruct (fail_times_below e key w 15 H0 Hs) as (F1 & F2 & F3 & F4 & F5);
    [unfold maxRetries; lia|].
  change (fail_times 16 e key w)
    with (final (handleErr (Some e) key (fail_times 15 e key w))).
  rewrite handleErr_drops by (rewrite F1; unfold maxRetries; lia).
  cbn [final add_handled set_queue add_log queue handled].
  rewrite NumRequeues_Forget, F4.
  unfold workqueue.Forget. cbn [workqueue.waiting workqueue.shuttingDown].
  by rewrite F2, F3.
Qed.

(** X11: the retry policy cycles with period sixteen: of [16 * q + r]
    failures of a key in a row ([r] at most 15), starting from a counter of
    zero, [q] are reported to the error sink and dropped and all the others
    are requeued, and the counter ends at [r]. *)
Theorem fail_times_cycle e key w (q r : nat) :
  workqueue.NumRequeues key (queue w) = O ->
  workqueue.shuttingDown (queue w) = false ->
  (r <= 15)%nat ->
  let w' := fail_times (r + 16 * q) e key w in
  workqueue.NumRequeues key (queue w') = r /\
  handled w' = (handled w ++ replicate q e)%list /\
  workqueue.waiting (queue w') =
    (workqueue.waiting (queue w) ++ replicate (r + 15 * q) key)%list.
Proof.
  intros H0 Hs Hr. cbv zeta.
  assert (Hq : workqueue.NumRequeues key (queue (fail_times (16 * q) e key w)) = O /\
               workqueue.shuttingDown (queue (fail_times (16 * q) e key w)) = false /\
               workqueue.waiting (queue (fail_times (16 * q) e key w)) =
                 (workqueue.waiting (queue w) ++ replicate (15 * q) key)%list /\
               handled (fail_times (16 * q) e key w) = (handled w ++ replicate q e)%list).
  { induction q as [|q IH].
    - simpl. by rewrite !app_nil_r.
    - destruct IH as (I1 & I2 & I3 & I4).
      replace (16 * S q)%nat with (16 + 16 * q)%nat by lia.
      rewrite fail_times_add.
      destruct (fail_times_round e key _ I1 I2) as (R1 & R2 & R3 & R4).
      split; [done|]. split; [done|]. split.
      + rewrite R3, I3, <- app_assoc, <- replicate_add. do 2 f_equal. lia.
      + rewrite R4, I4, <- app_assoc. f_equal.
        change [e] with (replicate 1 e). rewrite <- replicate_add.
        f_equal. lia. }
  destruct Hq as (Q1 & Q2 & Q3 & Q4).
  rewrite fail_times_add.
  destruct (fail_times_below e key _ r Q1 Q2) as (F1 & F2 & _ & F4 & _);
    [unfold maxRetries; lia|].
  split; [done|]. split; [by rewrite F4|].
  rewrite F2, Q3, <- app_assoc, <- replicate_add. do 2 f_equal. lia.
Qed.

End RetryMore.

(** ** The worker loop *)

#[local] Set Warnings "-clear-no-such-hyp".

Section WorkerLoop.

Variable SplitMetaNamespaceKey : string -> (string * string + error)%type.
Variable v : HPAController.

Implicit Types (key : string) (w : World).

Local Abbreviation step := (processNextWorkItem SplitMetaNamespaceKey v).

(** One step on a queue with a pending key. *)
Lemma processNextWorkItem_pending key (rest : list string) w :
  workqueue.items (queue w) = key :: rest ->
  exists o,
    step w = Some o /\
    ((exists w', o = Returned true w') \/ (exists w', o = Panicked w')) /\
    workqueue.items (queue (final o)) = rest /\
    workqueue.processing (queue (final o)) = workqueue.processing (queue w) ∖ {[key]} /\
    workqueue.shuttingDown (queue (final o)) = workqueue.shuttingDown (queue w) /\
    launched (final o) = launched w /\
    (updates (final o) = updates w \/
     exists c, updates (final o) = (updates w ++ [c])%list).
Proof.
  intros Hi. unfold processNextWorkItem, workqueue.Get. rewrite Hi.
  cbv iota beta. eexists. split; [reflexivity|].
  unfold defer, bind.
  set (w1 := set_queue _ w).
  destruct (syncHPA_final_frame SplitMetaNamespaceKey v key w1)
    as (Fq & _ & Fl & Fu & _).
  destruct (syncHPA SplitMetaNamespaceKey v key w1) as [res w2|w2]; cbn [final] in *.
  - destruct (handleErr_frame res key w2) as (w3 & -> & Gi & Gd & Gp & Gs & Gu & Gl & _).
    unfold ret. cbn [final set_queue queue updates launched].
    rewrite Gu, Gl, Fl. unfold workqueue.Done.
    cbn [workqueue.items workqueue.processing workqueue.shuttingDown].
    rewrite Gi, Gd, Gp, Gs, Fq. subst w1. cbn.
    split; [left; eauto|]. split.
    + rewrite decide_False by set_solver. reflexivity.
    + split; [set_solver|]. split; [reflexivity|]. split; [reflexivity | exact Fu].
  - cbn [final set_queue queue updates launched]. rewrite Fl. unfold workqueue.Done.
    cbn [workqueue.items workqueue.processing workqueue.shuttingDown].
    rewrite Fq. subst w1. cbn.
    split; [right; eauto|]. split.
    + rewrite decide_False by set_solver. reflexivity.
    + split; [set_solver|]. split; [reflexivity|]. split; [reflexivity | exact Fu].
Qed.

(** X12: a step of a worker on a queue with a pending key takes the
    first key and always marks it done again, also when the reconcile
    panics (the call of [Done] is deferred): afterwards the key is neither
    pending nor being processed, the other pending keys are as before, and
    at most one update call has been made; unless it panics the step
    returns true. *)
Theorem processNextWorkItem_marks_done key (rest : list string) w :
  workqueue.items (queue w) = key :: rest ->
  exists o,
    step w = Some o /\
    ((exists w', o = Returned true w') \/ (exists w', o = Panicked w')) /\
    workqueue.items (queue (final o)) = rest /\
    workqueue.processing (queue (final o)) = workqueue.processing (queue w) ∖ {[key]} /\
    (updates (final o) = updates w \/
     exists c, updates (final o) = (updates w ++ [c])%list).
Proof.
  intros Hi.
  destruct (processNextWorkItem_pending key rest w Hi)
    as (o & Ho & Hk & H1 & H2 & _ & _ & H3).
  exists o. auto.
Qed.

End WorkerLoop.

(** ** The retry loop: a worker and the back-off delays *)

Section RetryLoop.

Variable SplitMetaNamespaceKey : string -> (string * string + error)%type.
Variable v : HPAController.

Variables (key namespace name : string) (hpa : HorizontalPodAutoscaler)
  (oam : option (gmap string string)) (err : error).

Hypothesis Hsplit : SplitMetaNamespaceKey key = inl (namespace, name).
Hypothesis Hcached : hpaLister v namespace name = inl hpa.
Hypothesis Hcomputed : annotations hpa = Val oam.
Hypothesis Hrejects : forall history c, client v history c = inr err.

Implicit Types (w : World) (n : nat).

Local Abbreviation step := (processNextWorkItem SplitMetaNamespaceKey v).
Local Abbreviation loop := (worker SplitMetaNamespaceKey v).
Local Abbreviation sent :=
  {| call_namespace := Namespace hpa; call_object := merge_annotations oam hpa |}.

(** A step on the key alone in the queue, below the ceiling: the update
    is rejected and the key waits for its delay. *)
Lemma step_requeues w n :
  workqueue.items (queue w) = [key] ->
  workqueue.dirty (queue w) = {[key]} ->
  workqueue.processing (queue w) = ∅ ->
  workqueue.waiting (queue w) = [] ->
  workqueue.shuttingDown (queue w) = false ->
  workqueue.NumRequeues key (queue w) = n ->
  (n < maxRetries)%nat ->
  exists w',
    step w = Some (Returned true w') /\
    workqueue.items (queue w') = [] /\
    workqueue.dirty (queue w') = ∅ /\
    workqueue.processing (queue w') = ∅ /\
    workqueue.waiting (queue w') = [key] /\
    workqueue.shuttingDown (queue w') = false /\
    workqueue.NumRequeues key (queue w') = S n /\
    updates w' = (updates w ++ [sent])%list /\
    handled w' = handled w.
Proof.
  intros Hi Hd Hp Hw Hs Hn Hlt.
  unfold processNextWorkItem, workqueue.Get. rewrite Hi. cbv iota beta.
  unfold defer, bind.
  rewrite (syncHPA_found _ _ key namespace name hpa oam _ Hsplit Hcached Hcomputed).
  cbv zeta. rewrite Hrejects.
  rewrite handleErr_requeues by (rewrite <- Hn in Hlt; exact Hlt).
  unfold ret. eexists. split; [reflexivity|].
  cbn [set_queue add_log add_update queue updates handled].
  unfold workqueue.NumRequeues in Hn |- *.
  unfold workqueue.Done, workqueue.AddRateLimited, workqueue.NumRequeues.
  cbn [workqueue.items workqueue.dirty workqueue.processing workqueue.waiting
       workqueue.shuttingDown workqueue.failures].
  rewrite Hd, Hp, Hw, Hs, lookup_insert_eq, Hn.
  rewrite decide_False by set_solver.
  split; [done|]. split; [set_solver|]. split; [set_solver|]. done.
Qed.

(** The end of the delay puts the key back. *)
Lemma elapse_readds (q : workqueue.Queue) :
  workqueue.items q = [] ->
  workqueue.dirty q = ∅ ->
  workqueue.processing q = ∅ ->
  workqueue.waiting q = [key] ->
  workqueue.shuttingDown q = false ->
  workqueue.items (elapse key q) = [key] /\
  workqueue.dirty (elapse key q) = {[key]} /\
  workqueue.processing (elapse key q) = ∅ /\
  workqueue.waiting (elapse key q) = [] /\
  workqueue.shuttingDown (elapse key q) = false /\
  workqueue.NumRequeues key (elapse key q) = workqueue.NumRequeues key q.
Proof.
  intros Hi Hd Hp Hw Hs. unfold elapse.
  rewrite decide_True by (rewrite Hw; set_solver).
  unfold workqueue.Add. cbn [workqueue.shuttingDown workqueue.dirty workqueue.processing
                             workqueue.items workqueue.waiting].
  rewrite Hs, Hd, Hp, Hi, Hw. rewrite !decide_False by set_solver.
  cbn. rewrite String.eqb_refl. repeat split; set_solver.
Qed.

(** A step on the key alone in the queue, at the ceiling: the update is
    rejected, the error is reported and the key is dropped. *)
Lemma step_drops w n :
  workqueue.items (queue w) = [key] ->
  workqueue.dirty (queue w) = {[key]} ->
  workqueue.processing (queue w) = ∅ ->
  workqueue.waiting (queue w) = [] ->
  workqueue.shuttingDown (queue w) = false ->
  workqueue.NumRequeues key (queue w) = n ->
  (maxRetries <= n)%nat ->
  exists w',
    step w = Some (Returned true w') /\
    workqueue.items (queue w') = [] /\
    workqueue.waiting (queue w') = [] /\
    workqueue.processing (queue w') = ∅ /\
    workqueue.shuttingDown (queue w') = false /\
    workqueue.NumRequeues key (queue w') = O /\
    updates w' = (updates w ++ [sent])%list /\
    handled w' = (handled w ++ [err])%list.
Proof.
  intros Hi Hd Hp Hw Hs Hn Hge.
  unfold processNextWorkItem, workqueue.Get. rewrite Hi. cbv iota beta.
  unfold defer, bind.
  rewrite (syncHPA_found _ _ key namespace name hpa oam _ Hsplit Hcached Hcomputed).
  cbv zeta. rewrite Hrejects.
  rewrite handleErr_drops by (rewrite <- Hn in Hge; exact Hge).
  unfold ret. eexists. split; [reflexivity|].
  cbn [set_queue add_log add_update add_handled queue updates handled].
  unfold workqueue.Done, workqueue.Forget, workqueue.NumRequeues.
  cbn [workqueue.items workqueue.dirty workqueue.processing workqueue.waiting
       workqueue.shuttingDown workqueue.failures].
  rewrite Hd, Hp, Hw, Hs, lookup_delete_eq.
  rewrite decide_False by set_solver.
  split; [done|]. split; [done|]. split; [set_solver|]. done.
Qed.

(** The rounds below the ceiling. *)
Lemma retry_rounds_requeue n : forall m w (rest : list action),
  workqueue.items (queue w) = [key] ->
  workqueue.dirty (queue w) = {[key]} ->
  workqueue.processing (queue w) = ∅ ->
  workqueue.waiting (queue w) = [] ->
  workqueue.shuttingDown (queue w) = false ->
  workqueue.NumRequeues key (queue w) = m ->
  (m + n <= maxRetries)%nat ->
  exists wn,
    loop (retry_rounds key n ++ rest) w = loop rest wn /\
    workqueue.items (queue wn) = [key] /\
    workqueue.dirty (queue wn) = {[key]} /\
    workqueue.processing (queue wn) = ∅ /\
    workqueue.waiting (queue wn) = [] /\
    workqueue.shuttingDown (queue wn) = false /\
    workqueue.NumRequeues key (queue wn) = (m + n)%nat /\
    updates wn = (updates w ++ replicate n sent)%list /\
    handled wn = handled w.
Proof.
  induction n as [|n IH]; intros m w rest Hi Hd Hp Hw Hs Hn Hle.
  - exists w. cbn [retry_rounds app]. rewrite Nat.add_0_r, app_nil_r. auto 10.
  - destruct (step_requeues w m Hi Hd Hp Hw Hs Hn) as
      (w1 & H1 & Hi1 & Hd1 & Hp1 & Hw1 & Hs1 & Hn1 & Hu1 & Hh1); [lia|].
    destruct (elapse_readds (queue w1) Hi1 Hd1 Hp1 Hw1 Hs1)
      as (Hi2 & Hd2 & Hp2 & Hw2 & Hs2 & Hn2).
    destruct (IH (S m) (set_queue (elapse key) w1) rest) as
      (wn & Hl & Hin & Hdn & Hpn & Hwn & Hsn & Hnn & Hun & Hhn);
      cbn [set_queue queue]; try done; [congruence | lia |].
    exists wn. cbn [retry_rounds app worker]. rewrite H1.
    split; [exact Hl|]. do 5 (split; [done|]).
    split; [rewrite Hnn; lia|]. split.
    + rewrite Hun. cbn [set_queue updates]. rewrite Hu1, <- app_assoc. reflexivity.
    + rewrite Hhn. cbn [set_queue handled]. exact Hh1.
Qed.

(** X13: a key whose update is rejected every time is retried after each
    back-off delay, each attempt sending the same update, until the
    ceiling: as long as at most fifteen attempts have failed the key is
    pending again after its delay and nothing is reported; the sixteenth
    attempt is the last one, its error goes to the error sink, and the
    worker then waits on an empty queue with the key's counter back at
    zero. *)
Theorem rejected_key_is_retried_to_the_ceiling w :
  queue w = workqueue.Add key workqueue.empty ->
  (forall n, (n <= 15)%nat ->
     exists wn,
       loop (retry_rounds key n) w = Returned tt wn /\
       updates wn = (updates w ++ replicate n sent)%list /\
       handled wn = handled w /\
       workqueue.items (queue wn) = [key] /\
       workqueue.NumRequeues key (queue wn) = n) /\
  exists w',
    loop (retry_rounds key 15 ++ [Step]) w = Returned tt w' /\
    updates w' = (updates w ++ replicate 16 sent)%list /\
    handled w' = (handled w ++ [err])%list /\
    workqueue.items (queue w') = [] /\
    workqueue.waiting (queue w') = [] /\
    workqueue.NumRequeues key (queue w') = O /\
    step w' = None.
Proof.
  intros Hq.
  assert (Hi : workqueue.items (queue w) = [key]) by (by rewrite Hq).
  assert (Hd : workqueue.dirty (queue w) = {[key]}) by (rewrite Hq; cbn; set_solver).
  assert (Hp : workqueue.processing (queue w) = ∅) by (by rewrite Hq).
  assert (Hw : workqueue.waiting (queue w) = []) by (by rewrite Hq).
  assert (Hs : workqueue.shuttingDown (queue w) = false) by (by rewrite Hq).
  assert (Hn : workqueue.NumRequeues key (queue w) = O) by (by rewrite Hq).
  split.
  - intros n Hle.
    destruct (retry_rounds_requeue n O w [] Hi Hd Hp Hw Hs Hn) as
      (wn & Hl & Hin & _ & _ & _ & _ & Hnn & Hun & Hhn); [unfold maxRetries; lia|].
    exists wn. rewrite app_nil_r in Hl. rewrite Hl. cbn [worker]. auto.
  - destruct (retry_rounds_requeue 15 O w [Step] Hi Hd Hp Hw Hs Hn) as
      (w15 & Hl & Hi15 & Hd15 & Hp15 & Hw15 & Hs15 & Hn15 & Hu15 & Hh15);
      [unfold maxRetries; lia|].
    destruct (step_drops w15 15 Hi15 Hd15 Hp15 Hw15 Hs15 Hn15) as
      (w' & H' & Hi' & Hw' & Hp' & Hs' & Hn' & Hu' & Hh'); [unfold maxRetries; lia|].
    exists w'. rewrite Hl. cbn [worker]. rewrite H'. split; [reflexivity|].
    split.
    { rewrite Hu', Hu15, <- app_assoc. reflexivity. }
    split; [by rewrite Hh', Hh15|]. do 3 (split; [done|]).
    rewrite (processNextWorkItem_empty _ _ w' Hi'). by rewrite Hs'.
Qed.

End RetryLoop.

(** ** The event handlers *)

Section EventHandlers.

Variable Obj : Type.
Variable MetaNamespaceKeyFunc : Obj -> (string + error)%type.
Variable couldnt_get_key : Obj -> error -> string.

Implicit Types (ev : Event Obj) (evs : list (Event Obj)) (w : World) (key : string).

Local Abbreviation on := (handle Obj MetaNamespaceKeyFunc couldnt_get_key).
Local Abbreviation on_all := (handle_all Obj MetaNamespaceKeyFunc couldnt_get_key).
Local Abbreviation key_of := (queued_key Obj MetaNamespaceKeyFunc).
Local Abbreviation report_of := (reported Obj MetaNamespaceKeyFunc couldnt_get_key).

(** One notification: at most one [Add], or one report. *)
Lemma handle_one ev w :
  exists w',
    on ev w = Returned tt w' /\
    queue w' = from_option (fun key => workqueue.Add key (queue w)) (queue w) (key_of ev) /\
    handled w' = (handled w ++ from_option (fun e => [e]) [] (report_of ev))%list /\
    updates w' = updates w /\ launched w' = launched w.
Proof.
  destruct ev as [obj|old obj|obj]; unfold handle, enqueueHPA, queued_key, event_key, reported;
    try destruct (MetaNamespaceKeyFunc obj) as [key|err];
    (eexists; split; [reflexivity|]); cbn; rewrite ?app_nil_r; auto.
Qed.

(** X14: the handlers never panic and act on the queue and the error
    sink only: after any sequence of notifications the queue is the one
    obtained by adding, in order, the keys of the objects added or updated
    (for an update the key of the new object; the old one is ignored), the
    error sink has one more report for each such object without a key, and
    a delete notification has no effect at all. *)
Theorem handle_all_effects evs : forall w,
  exists w',
    on_all evs w = Returned tt w' /\
    queue w' = foldl (fun q key => workqueue.Add key q) (queue w) (omap key_of evs) /\
    handled w' = (handled w ++ omap report_of evs)%list /\
    updates w' = updates w /\ launched w' = launched w.
Proof.
  induction evs as [|ev evs IH]; intros w.
  - exists w. cbn. by rewrite app_nil_r.
  - destruct (handle_one ev w) as (w1 & H1 & Hq & Hh & Hu & Hl).
    destruct (IH w1) as (w2 & H2 & Hq2 & Hh2 & Hu2 & Hl2).
    exists w2. cbn [handle_all]. unfold bind. rewrite H1. split; [exact H2|].
    rewrite Hq2, Hh2, Hu2, Hl2, Hq, Hh, Hu, Hl. cbn [omap list_omap].
    destruct (key_of ev), (report_of ev); cbn; rewrite <- ?app_assoc, ?app_nil_r; auto.
Qed.

(** Adding a key that is already marked changes nothing. *)
Lemma Add_dirty key (q : workqueue.Queue) :
  key ∈ workqueue.dirty q -> workqueue.Add key q = q.
Proof.
  intros H. unfold workqueue.Add. destruct (workqueue.shuttingDown q); [done|].
  by rewrite decide_True.
Qed.

Lemma Add_all_dirty key (keys : list string) : forall q : workqueue.Queue,
  Forall (fun k => k = key) keys ->
  key ∈ workqueue.dirty q ->
  foldl (fun q k => workqueue.Add k q) q keys = q.
Proof.
  induction keys as [|k keys IH]; intros q HF Hd; [done|].
  apply Forall_cons in HF as [-> HF']. cbn. rewrite (Add_dirty key q Hd). by apply IH.
Qed.

(** X15: notifications for one key are coalesced: however many add and
    update notifications for objects with the key [key] arrive before a
    worker takes the key, the key is pending once; if the key is being
    processed it is not made pending but marked, so that it is delivered
    again when the worker is done with it. *)
Theorem handle_all_coalesces evs key w :
  evs <> [] ->
  Forall (fun ev => key_of ev = Some key) evs ->
  workqueue.shuttingDown (queue w) = false ->
  key ∉ workqueue.dirty (queue w) ->
  exists w',
    on_all evs w = Returned tt w' /\
    workqueue.items (queue w') =
      (if decide (key ∈ workqueue.processing (queue w))
       then workqueue.items (queue w)
       else workqueue.items (queue w) ++ [key])%list /\
    key ∈ workqueue.dirty (queue w') /\
    (key ∈ workqueue.processing (queue w) ->
     workqueue.items (workqueue.Done key (queue w')) =
       (workqueue.items (queue w) ++ [key])%list) /\
    handled w' = handled w.
Proof.
  intros Hne HF Hs Hd.
  destruct (handle_all_effects evs w) as (w' & H & Hq & Hh & _).
  exists w'. split; [exact H|].
  assert (Hkeys : omap key_of evs = replicate (length evs) key).
  { clear -HF. induction HF as [|ev evs Hev HF IH]; [done|].
    cbn [omap list_omap]. rewrite Hev. cbn. by rewrite <- IH. }
  assert (Hrep : omap report_of evs = []).
  { clear -HF. induction HF as [|ev evs Hev HF IH]; [done|].
    cbn [omap list_omap]. rewrite IH.
    unfold queued_key, event_key, reported in *.
    destruct ev as [obj|old obj|obj]; try destruct (MetaNamespaceKeyFunc obj); done. }
  destruct evs as [|ev evs]; [done|]. cbn [length replicate] in Hkeys.
  rewrite Hkeys in Hq. cbn [foldl] in Hq.
  rewrite (Add_all_dirty key) in Hq.
  - rewrite Hq, Hh, Hrep, app_nil_r. unfold workqueue.Add, workqueue.Done. rewrite Hs.
    rewrite decide_False by done.
    cbn [workqueue.items workqueue.dirty]. split; [done|].
    split; [set_solver|]. split; [|done].
    intros Hp. rewrite decide_True by set_solver. by rewrite decide_True.
  - apply Forall_forall. intros k Hk. by apply elem_of_replicate in Hk as [-> _].
  - unfold workqueue.Add. rewrite Hs. rewrite decide_False by done.
    cbn [workqueue.dirty]. set_solver.
Qed.

End EventHandlers.

(** ** The further properties at concrete resources *)

Lemma annotations_keys_witness :
  let am : gmap string string := {["cpuTargetUtilization" := "80"]} in
  let hpa := web None [resource_metric ResourceCPU 80; pods_metric] in
  (is_Some (am !! "cpuTargetUtilization") <->
   existsb (targets ResourceCPU) (Metrics hpa) = true) /\
  (is_Some (am !! "memoryTargetValue") <->
   existsb (targets ResourceMemory) (Metrics hpa) = true) /\
  (forall k, k <> "cpuTargetUtilization" -> k <> "memoryTargetValue" ->
             am !! k = None).
Proof.
  exact (annotations_keys (web None [resource_metric ResourceCPU 80; pods_metric])
           {["cpuTargetUtilization" := "80"]} eq_refl).
Defined.

Lemma syncHPA_without_cpu_memory_metric_witness :
  let hpa := web (Some {["owner" := "team-a"]})
               [pods_metric; resource_metric "storage" 50] in
  let c := {| call_namespace := "prod"; call_object := hpa |} in
  exists w',
    syncHPA cache.SplitMetaNamespaceKey (controller_of hpa) "prod/web" world0
      = Returned None w' /\
    updates w' = [c].
Proof.
  exact (syncHPA_without_cpu_memory_metric cache.SplitMetaNamespaceKey
           (controller_of (web (Some {["owner" := "team-a"]})
                             [pods_metric; resource_metric "storage" 50]))
           "prod/web" "prod" "web"
           (web (Some {["owner" := "team-a"]}) [pods_metric; resource_metric "storage" 50])
           world0 eq_refl eq_refl eq_refl).
Defined.

Lemma syncHPA_returns_update_error_witness :
  let hpa := web None [resource_metric ResourceCPU 80] in
  let v := {| client := reject_all; hpaLister := cache_of hpa |} in
  let w' := final (syncHPA cache.SplitMetaNamespaceKey v "prod/web" world0) in
  exists sent,
    let c := {| call_namespace := "prod"; call_object := sent |} in
    updates w' = [c] /\
    (Some (StatusError "Conflict" "the object has been modified") = None <->
     exists answer, reject_all [] c = inl answer) /\
    (forall err,
       Some (StatusError "Conflict" "the object has been modified") = Some err <->
       reject_all [] c = inr err).
Proof.
  exact (syncHPA_returns_update_error cache.SplitMetaNamespaceKey
           {| client := reject_all;
              hpaLister := cache_of (web None [resource_metric ResourceCPU 80]) |}
           "prod/web" "prod" "web" (web None [resource_metric ResourceCPU 80]) world0
           (Some (StatusError "Conflict" "the object has been modified"))
           _ eq_refl eq_refl eq_refl).
Defined.

Lemma syncHPA_sends_same_object_witness :
  let hpa := web (Some {["owner" := "team-a"]}) [resource_metric ResourceCPU 80] in
  let w' := final (syncHPA cache.SplitMetaNamespaceKey (controller_of hpa)
                     "prod/web" world0) in
  exists sent,
    updates w' = [ {| call_namespace := "prod"; call_object := sent |} ] /\
    Namespace sent = "prod" /\ ObjName sent = "web" /\
    Metrics sent = [resource_metric ResourceCPU 80] /\
    forall k : string,
      k <> "cpuTargetUtilization" -> k <> "memoryTargetValue" ->
      default ∅ (Annotations sent) !! k =
      ({["owner" := "team-a"]} : gmap string string) !! k.
Proof.
  exact (syncHPA_sends_same_object cache.SplitMetaNamespaceKey
           (controller_of (web (Some {["owner" := "team-a"]})
                             [resource_metric ResourceCPU 80]))
           "prod/web" "prod" "web"
           (web (Some {["owner" := "team-a"]}) [resource_metric ResourceCPU 80])
           world0 None _ eq_refl eq_refl eq_refl).
Defined.

Lemma syncHPA_steady_state_witness :
  let hpa := web None [resource_metric ResourceCPU 80] in
  let sent := set_Annotations (Some {["cpuTargetUtilization" := "80"]}) hpa in
  let c := {| call_namespace := "prod"; call_object := sent |} in
  exists res' w3,
    syncHPA cache.SplitMetaNamespaceKey (controller_of sent) "prod/web" world0
      = Returned res' w3 /\
    updates w3 = [c].
Proof.
  cbv zeta.
  destruct (syncHPA_steady_state cache.SplitMetaNamespaceKey
              (controller_of (web None [resource_metric ResourceCPU 80]))
              (controller_of
                 (set_Annotations (Some {["cpuTargetUtilization" := "80"]})
                    (web None [resource_metric ResourceCPU 80])))
              "prod/web" "prod" "web" (web None [resource_metric ResourceCPU 80])
              world0 None
              (final (syncHPA cache.SplitMetaNamespaceKey
                        (controller_of (web None [resource_metric ResourceCPU 80]))
                        "prod/web" world0))
              world0 eq_refl eq_refl)
    as (sent & Hup & Hnext).
  - vm_compute. reflexivity.
  - assert (Hs : sent = set_Annotations (Some {["cpuTargetUtilization" := "80"]})
                          (web None [resource_metric ResourceCPU 80])).
    { cbv zeta in Hup. vm_compute in Hup. injection Hup as <-. vm_compute. reflexivity. }
    subst sent. exact (Hnext eq_refl).
Defined.

Lemma fail_times_cycle_witness :
  let e := StatusError "Conflict" "the object has been modified" in
  let w' := fail_times 35 e "prod/web" world0 in
  workqueue.NumRequeues "prod/web" (queue w') = 3%nat /\
  handled w' = [e; e] /\
  workqueue.waiting (queue w') = replicate 33 "prod/web".
Proof.
  exact (fail_times_cycle (StatusError "Conflict" "the object has been modified")
           "prod/web" world0 2 3 eq_refl eq_refl ltac:(lia)).
Defined.

Lemma processNextWorkItem_marks_done_witness :
  let hpa := web None [resource_metric ResourceCPU 80] in
  let w := set_queue (workqueue.Add "prod/web") world0 in
  exists o,
    processNextWorkItem cache.SplitMetaNamespaceKey (controller_of hpa) w = Some o /\
    ((exists w', o = Returned true w') \/ (exists w', o = Panicked w')) /\
    workqueue.items (queue (final o)) = [] /\
    workqueue.processing (queue (final o)) = workqueue.processing (queue w) ∖ {["prod/web"]} /\
    (updates (final o) = updates w \/
     exists c, updates (final o) = (updates w ++ [c])%list).
Proof.
  exact (processNextWorkItem_marks_done cache.SplitMetaNamespaceKey
           (controller_of (web None [resource_metric ResourceCPU 80]))
           "prod/web" [] (set_queue (workqueue.Add "prod/web") world0) eq_refl).
Defined.

Lemma rejected_key_is_retried_to_the_ceiling_witness :
  let hpa := web None [resource_metric ResourceCPU 80] in
  let v := {| client := reject_all; hpaLister := cache_of hpa |} in
  let w := set_queue (workqueue.Add "prod/web") world0 in
  let c := {| call_namespace := "prod";
              call_object := web (Some {["cpuTargetUtilization" := "80"]})
                               [resource_metric ResourceCPU 80] |} in
  exists w',
    worker cache.SplitMetaNamespaceKey v (retry_rounds "prod/web" 15 ++ [Step]) w
      = Returned tt w' /\
    updates w' = replicate 16 c /\
    handled w' = [StatusError "Conflict" "the object has been modified"] /\
    workqueue.items (queue w') = [] /\
    workqueue.waiting (queue w') = [] /\
    workqueue.NumRequeues "prod/web" (queue w') = O.
Proof.
  cbv zeta.
  assert (Hcomputed : annotations (web None [resource_metric ResourceCPU 80])
                      = Val (Some {["cpuTargetUtilization" := "80"]}))
    by (vm_compute; reflexivity).
  destruct (rejected_key_is_retried_to_the_ceiling cache.SplitMetaNamespaceKey
              {| client := reject_all;
                 hpaLister := cache_of (web None [resource_metric ResourceCPU 80]) |}
              "prod/web" "prod" "web" (web None [resource_metric ResourceCPU 80])
              (Some {["cpuTargetUtilization" := "80"]})
              (StatusError "Conflict" "the object has been modified")
              eq_refl eq_refl Hcomputed (fun _ _ => eq_refl)
              (set_queue (workqueue.Add "prod/web") world0) eq_refl)
    as [_ (w' & Hloop & Hup & Hh & Hi & Hw & Hn & _)].
  exists w'. split; [exact Hloop|]. split.
  { rewrite Hup. vm_compute. reflexivity. }
  split; [exact Hh|]. split; [exact Hi|]. split; [exact Hw | exact Hn].
Defined.

Lemma handle_all_coalesces_witness :
  let key_of := fun hpa : HorizontalPodAutoscaler =>
                  inl (Namespace hpa ++ "/" ++ ObjName hpa) : (string + error)%type in
  let text := fun (_ : HorizontalPodAutoscaler) (_ : error) => "couldn't get key" in
  let old := web None [] in
  let cur := web None [resource_metric ResourceCPU 80] in
  exists w',
    handle_all HorizontalPodAutoscaler key_of text
      [OnAdd old; OnUpdate old cur; OnUpdate cur cur] world0 = Returned tt w' /\
    workqueue.items (queue w') = ["prod/web"] /\
    handled w' = [].
Proof.
  cbv zeta.
  destruct (handle_all_coalesces HorizontalPodAutoscaler
              (fun hpa => inl (Namespace hpa ++ "/" ++ ObjName hpa))
              (fun _ _ => "couldn't get key")
              [OnAdd (web None []);
               OnUpdate (web None []) (web None [resource_metric ResourceCPU 80]);
               OnUpdate (web None [resource_metric ResourceCPU 80])
                        (web None [resource_metric ResourceCPU 80])]
              "prod/web" world0)
    as (w' & H & Hi & _ & _ & Hh).
  - discriminate.
  - repeat constructor.
  - reflexivity.
  - vm_compute. set_solver.
  - exists w'. split; [exact H|]. split; [|exact Hh].
    rewrite Hi. rewrite decide_False by (vm_compute; set_solver). reflexivity.
Defined.
